(** * A shallow embedding of [systeccan.py] (the Python wrapper of the
    SYSTEC USB-CAN library) and proofs of its documented behaviour.

    Native return codes are ctypes [c_ubyte] values ([ReturnCode]), so a
    code is modelled as a [Z] in [0, 255].  The opaque vendor library is
    an oracle that answers each native call with a return code. *)

From Stdlib Require Import ZArith Bool List String Ascii Lia.
Import ListNotations.
Open Scope string_scope.
Open Scope Z_scope.

(** ** class ReturnCode(BYTE) *)
Module ReturnCode.
Definition SUCCESSFUL : Z := 0x0.
Definition ERR : Z := 0x1.
Definition ERRCMD : Z := 0x40.
Definition WARNING : Z := 0x80.
Definition RESERVED : Z := 0xC0.
Definition WARN_NODATA : Z := 0x80.
Definition WARN_TXLIMIT : Z := 0x91.
End ReturnCode.
Import ReturnCode.

(** ** Module-level result predicates *)

(** [return (result.value == ReturnCode.SUCCESSFUL) or (result.value > ReturnCode.WARNING)] *)
Definition check_valid_rx_can_msg (result : Z) : bool :=
  (result =? SUCCESSFUL) || (result >? WARNING).

Definition check_tx_ok (result : Z) : bool :=
  (result =? SUCCESSFUL) || (result >? WARNING).

Definition check_tx_success (result : Z) : bool :=
  result =? SUCCESSFUL.

Definition check_tx_not_all (result : Z) : bool :=
  result =? WARN_TXLIMIT.

Definition check_warning (result : Z) : bool :=
  result >=? WARNING.

Definition check_error (result : Z) : bool :=
  negb (result =? SUCCESSFUL) && (result <? WARNING).

Definition check_error_cmd (result : Z) : bool :=
  (result >=? ERRCMD) && (result <? WARNING).

(** ** Exceptions of the module *)

(** The name of a native entry point, as ctypes passes it to [errcheck]
    in [func], together with the tuple of [arguments]. *)
Definition func_name := string.
Definition arguments := list Z.

Inductive USBCanException :=
| USBCanError (result : Z) (func : func_name) (args : arguments)
| USBCanCmdError (result : Z) (func : func_name) (args : arguments).

(** Effects of [check_result]: an optional logged warning, then either the
    result returned or an exception raised. *)
Record USBCanWarning := { w_result : Z; w_func : func_name; w_args : arguments }.

Inductive outcome (A : Type) :=
| Returned (a : A)
| Raised (e : USBCanException).
Arguments Returned {A} a.
Arguments Raised {A} e.

(** [def check_result(result, func, arguments)]: the [errcheck] hook of
    every native call.  Returns the logged warnings and the outcome. *)
Definition check_result (result : Z) (func : func_name) (args : arguments)
  : list USBCanWarning * outcome Z :=
  if check_warning result then
    ([{| w_result := result; w_func := func; w_args := args |}], Returned result)
  else if check_error result then
    if check_error_cmd result then ([], Raised (USBCanCmdError result func args))
    else ([], Raised (USBCanError result func args))
  else ([], Returned result).

(** ** Native calls and the state-and-exception monad *)

(** [class Channel(BYTE)] *)
Module Channel.
Definition CHANNEL_CH0 : Z := 0.
Definition CHANNEL_CH1 : Z := 1.
Definition CHANNEL_ALL : Z := 254.
Definition CHANNEL_ANY : Z := 255.
End Channel.
Import Channel.

(** [INVALID_HANDLE = 0xFF], [ANY_MODULE = 255] *)
Definition INVALID_HANDLE : Z := 0xFF.
Definition ANY_MODULE : Z := 255.

(** The native entry points the session object calls, with the argument
    values that matter here.  [UcanOther] stands for every other entry
    point (reads, writes, queries), which leave the session fields alone. *)
Inductive NativeCall :=
| UcanInitHwConnectControlEx (callback : nat)
| UcanInitHardwareEx (device_number : Z) (callback : nat)
| UcanInitHardwareEx2 (serial : Z) (callback : nat)
| UcanInitCanEx2 (handle channel : Z)
| UcanDeinitCanEx (handle channel : Z)
| UcanDeinitHardware (handle : Z)
| UcanOther (name : func_name) (handle : Z) (args : arguments).

Definition call_name (c : NativeCall) : func_name :=
  match c with
  | UcanInitHwConnectControlEx _ => "UcanInitHwConnectControlEx"
  | UcanInitHardwareEx _ _ => "UcanInitHardwareEx"
  | UcanInitHardwareEx2 _ _ => "UcanInitHardwareEx2"
  | UcanInitCanEx2 _ _ => "UcanInitCanEx2"
  | UcanDeinitCanEx _ _ => "UcanDeinitCanEx"
  | UcanDeinitHardware _ => "UcanDeinitHardware"
  | UcanOther n _ _ => n
  end.

Definition call_args (c : NativeCall) : arguments :=
  match c with
  | UcanInitHwConnectControlEx cb => [Z.of_nat cb; 0]
  | UcanInitHardwareEx d cb => [d; Z.of_nat cb; 0]
  | UcanInitHardwareEx2 s cb => [s; Z.of_nat cb; 0]
  | UcanInitCanEx2 h ch => [h; ch]
  | UcanDeinitCanEx h ch => [h; ch]
  | UcanDeinitHardware h => [h]
  | UcanOther _ h a => h :: a
  end.

(** A Python value stored in the [_connect_control_ref] attribute: [None]
    or the [ConnectControlFktEx] object built by the n-th constructor. *)
Inductive pyval := PyNone | PyCallback (n : nat).

(** Process-wide state: the class attribute
    [USBCanServer._connect_control_ref], the trace of native calls issued so
    far (most recent first), the warnings logged and the number of
    objects created (to name the callback objects). *)
Record World := {
  cls_connect_control_ref : pyval;
  trace : list NativeCall;
  log : list USBCanWarning;
  next_obj : nat
}.

Definition push_call (w : World) (c : NativeCall) : World :=
  {| cls_connect_control_ref := cls_connect_control_ref w; trace := c :: trace w;
     log := log w; next_obj := next_obj w |}.
Definition add_log (w : World) (l : list USBCanWarning) : World :=
  {| cls_connect_control_ref := cls_connect_control_ref w; trace := trace w;
     log := l ++ log w; next_obj := next_obj w |}.
Definition bump_obj (w : World) : World :=
  {| cls_connect_control_ref := cls_connect_control_ref w; trace := trace w;
     log := log w; next_obj := S (next_obj w) |}.

(** A state-and-exception monad over a state [S]. *)
Definition M (S A : Type) := S -> outcome A * S.

Definition ret {S A} (a : A) : M S A := fun s => (Returned a, s).
Definition bind {S A B} (m : M S A) (k : A -> M S B) : M S B :=
  fun s => match m s with
           | (Returned a, s') => k a s'
           | (Raised e, s') => (Raised e, s')
           end.
Notation "x <- m ;; k" := (bind m (fun x => k)) (at level 61, m at next level, right associativity).
Notation "m ;;; k" := (bind m (fun _ => k)) (at level 61, right associativity).
Definition get {S} : M S S := fun s => (Returned s, s).

Section Driver.

(** The vendor library, opaque to the wrapper: the return code of each
    call given the calls issued before it, and the handle it writes
    through [byref(self._handle)] on a hardware-init call. *)
Variable native_rc : list NativeCall -> NativeCall -> Z.
Variable native_handle : list NativeCall -> Z.

(** A native call through ctypes: the library runs, then [errcheck =
    check_result] inspects [result] (a [c_ubyte], hence taken mod 256). *)
Definition native (c : NativeCall) : M World Z :=
  fun w =>
    let r := native_rc (trace w) c mod 256 in
    let '(warns, o) := check_result r (call_name c) (call_args c) in
    (o, add_log (push_call w c) warns).

(** Creating a fresh Python object (a ctypes callback trampoline). *)
Definition new_obj : M World nat :=
  fun w => (Returned (next_obj w), bump_obj w).

(** ** class USBCanServer *)

(** The instance attributes.  [_ch_is_initialized] is a Python dict,
    kept as an association list in insertion order; [_connect_control_ref]
    is the instance's own attribute, absent ([None]) until assigned. *)
Record Server := {
  _handle : Z;
  _is_initialized : bool;
  _hw_is_initialized : bool;
  _ch_is_initialized : list (Z * bool);
  _callback_ref : nat;
  _connect_control_ref : option pyval
}.

Definition set_handle (s : Server) (h : Z) : Server :=
  {| _handle := h; _is_initialized := _is_initialized s;
     _hw_is_initialized := _hw_is_initialized s; _ch_is_initialized := _ch_is_initialized s;
     _callback_ref := _callback_ref s; _connect_control_ref := _connect_control_ref s |}.
Definition set_hw (s : Server) (b : bool) : Server :=
  {| _handle := _handle s; _is_initialized := _is_initialized s;
     _hw_is_initialized := b; _ch_is_initialized := _ch_is_initialized s;
     _callback_ref := _callback_ref s; _connect_control_ref := _connect_control_ref s |}.
Definition set_ch (s : Server) (d : list (Z * bool)) : Server :=
  {| _handle := _handle s; _is_initialized := _is_initialized s;
     _hw_is_initialized := _hw_is_initialized s; _ch_is_initialized := d;
     _callback_ref := _callback_ref s; _connect_control_ref := _connect_control_ref s |}.
Definition set_inst_ref (s : Server) (v : pyval) : Server :=
  {| _handle := _handle s; _is_initialized := _is_initialized s;
     _hw_is_initialized := _hw_is_initialized s; _ch_is_initialized := _ch_is_initialized s;
     _callback_ref := _callback_ref s; _connect_control_ref := Some v |}.

(** [d.get(k, default)] *)
Fixpoint dict_get (k : Z) (d : list (Z * bool)) (default : bool) : bool :=
  match d with
  | [] => default
  | (k', v) :: t => if k =? k' then v else dict_get k t default
  end.

(** [d[k] = v]: an existing key keeps its place, a new key goes last. *)
Fixpoint dict_set (k : Z) (v : bool) (d : list (Z * bool)) : list (Z * bool) :=
  match d with
  | [] => [(k, v)]
  | (k', v') :: t => if k =? k' then (k', v) :: t else (k', v') :: dict_set k v t
  end.

(** [self._connect_control_ref] read through an instance: the instance
    attribute if there is one, else the class attribute. *)
Definition getattr_connect_control_ref (w : World) (s : Server) : pyval :=
  match _connect_control_ref s with
  | Some v => v
  | None => cls_connect_control_ref w
  end.

(** Running a process-level action from a method of an instance. *)
Definition lift {A} (m : M World A) : M (World * Server) A :=
  fun '(w, s) => let '(o, w') := m w in (o, (w', s)).
Definition get_self : M (World * Server) Server := fun '(w, s) => (Returned s, (w, s)).
Definition put_self (s : Server) : M (World * Server) unit :=
  fun '(w, _) => (Returned tt, (w, s)).

Definition call (c : NativeCall) : M (World * Server) Z := lift (native c).

(** [def __init__(self)] *)
Definition USBCanServer_init : M World Server :=
  cb <- new_obj ;;
  let self := {| _handle := INVALID_HANDLE; _is_initialized := false;
                 _hw_is_initialized := false;
                 _ch_is_initialized := [(CHANNEL_CH0, false); (CHANNEL_CH1, false)];
                 _callback_ref := cb; _connect_control_ref := None |} in
  w <- get ;;
  match getattr_connect_control_ref w self with
  | PyNone =>
      ref <- new_obj ;;
      (* self._connect_control_ref = ConnectControlFktEx(...) *)
      let self := set_inst_ref self (PyCallback ref) in
      native (UcanInitHwConnectControlEx ref) ;;;
      ret self
  | PyCallback _ => ret self
  end.

(** [@property is_initialized] *)
Definition is_initialized (s : Server) : bool := _is_initialized s.
Definition is_can0_initialized (s : Server) : bool :=
  dict_get CHANNEL_CH0 (_ch_is_initialized s) false.
Definition is_can1_initialized (s : Server) : bool :=
  dict_get CHANNEL_CH1 (_ch_is_initialized s) false.

(** A hardware-init call: the library writes the handle through
    [byref(self._handle)], then [check_result] runs. *)
Definition call_init_hw (c : NativeCall) : M (World * Server) Z :=
  fun '(w, s) => call c (w, set_handle s (native_handle (trace w))).

(** [def init_hardware(self, serial=None, device_number=ANY_MODULE)] *)
Definition init_hardware (serial : option Z) (device_number : Z) : M (World * Server) unit :=
  self <- get_self ;;
  if negb (_hw_is_initialized self) then
    match serial with
    | None => call_init_hw (UcanInitHardwareEx device_number (_callback_ref self))
    | Some sn => call_init_hw (UcanInitHardwareEx2 sn (_callback_ref self))
    end ;;;
    self <- get_self ;;
    put_self (set_hw self true)
  else ret tt.

(** [def init_can(self, channel=Channel.CHANNEL_CH0, ...)]; the timing,
    mode and buffer arguments only fill the [InitCanParam] passed on. *)
Definition init_can (channel : Z) : M (World * Server) unit :=
  self <- get_self ;;
  if negb (dict_get channel (_ch_is_initialized self) false) then
    call (UcanInitCanEx2 (_handle self) channel) ;;;
    self <- get_self ;;
    put_self (set_ch self (dict_set channel true (_ch_is_initialized self)))
  else ret tt.

(** The loop of [shutdown] over [self._ch_is_initialized.items()].  The
    loop only rewrites the value of the key it is visiting, so the value it
    reads for each key is the one the dict held when the loop started. *)
Fixpoint shutdown_channels (channel : Z) (shutdown_hardware : bool)
    (items : list (Z * bool)) : M (World * Server) unit :=
  match items with
  | [] => ret tt
  | (_channel, is_init) :: rest =>
      (if is_init && ((_channel =? channel) || (channel =? CHANNEL_ALL) || shutdown_hardware)
       then self <- get_self ;;
            call (UcanDeinitCanEx (_handle self) _channel) ;;;
            self <- get_self ;;
            put_self (set_ch self (dict_set _channel false (_ch_is_initialized self)))
       else ret tt) ;;;
      shutdown_channels channel shutdown_hardware rest
  end.

(** [def shutdown(self, channel=Channel.CHANNEL_ALL, shutdown_hardware=True)] *)
Definition shutdown (channel : Z) (shutdown_hardware : bool) : M (World * Server) unit :=
  self <- get_self ;;
  shutdown_channels channel shutdown_hardware (_ch_is_initialized self) ;;;
  self <- get_self ;;
  if _hw_is_initialized self && shutdown_hardware then
    call (UcanDeinitHardware (_handle self)) ;;;
    self <- get_self ;;
    put_self (set_handle (set_hw self false) INVALID_HANDLE)
  else ret tt.

(** Every other method ([read_can_msg], [write_can_msg], [set_baudrate],
    [get_status], [reset_can], the cyclic-message calls, ...): one native
    call on [self._handle], no attribute of [self] written. *)
Definition other_method (name : func_name) (args : arguments) : M (World * Server) unit :=
  self <- get_self ;;
  call (UcanOther name (_handle self) args) ;;;
  ret tt.

End Driver.

(** ** Version helpers (class methods of [USBCanServer]) *)

Definition convert_to_major_ver (version : Z) : Z := Z.land version 0xFF.
Definition convert_to_minor_ver (version : Z) : Z := Z.shiftr (Z.land version 0xFF00) 8.
Definition convert_to_release_ver (version : Z) : Z := Z.shiftr (Z.land version 0xFFFF0000) 16.

Definition check_version_is_equal_or_higher (version cmp_major cmp_minor : Z) : bool :=
  (convert_to_major_ver version >? cmp_major)
  || ((convert_to_major_ver version =? cmp_major)
      && (convert_to_minor_ver version >=? cmp_minor)).

(** ** Acceptance filter helpers *)

(** [def calculate_amr(cls, is_extended, from_id, to_id, rtr_only=False, rtr_too=True)] *)
Definition calculate_amr (is_extended : bool) (from_id to_id : Z)
    (rtr_only rtr_too : bool) : Z :=
  if is_extended
  then Z.lor (Z.shiftl (Z.lxor from_id to_id) 3) (if rtr_too && negb rtr_only then 0x7 else 0x3)
  else Z.lor (Z.shiftl (Z.lxor from_id to_id) 21)
             (if rtr_too && negb rtr_only then 0x1FFFFF else 0xFFFFF).

(** [def calculate_acr(cls, is_extended, from_id, to_id, rtr_only=False, rtr_too=True)] *)
Definition calculate_acr (is_extended : bool) (from_id to_id : Z)
    (rtr_only rtr_too : bool) : Z :=
  if is_extended
  then Z.lor (Z.shiftl (Z.land from_id to_id) 3) (if rtr_only then 0x04 else 0)
  else Z.lor (Z.shiftl (Z.land from_id to_id) 21) (if rtr_only then 0x100000 else 0).

(** The acceptance test the module applies to the 32-bit register pair
    (the test itself runs in the module, not in this wrapper): the
    identifier's register image ([id << 3] for a 29-bit id, [id << 21] for
    an 11-bit id) must agree with ACR at every bit of the 32-bit register
    where AMR has a 0. *)
Definition id_image (is_extended : bool) (id : Z) : Z :=
  Z.shiftl id (if is_extended then 3 else 21).

Definition acceptance_test (is_extended : bool) (amr acr id : Z) : bool :=
  Z.land (Z.land (Z.lxor (id_image is_extended id) acr) (Z.lnot amr)) 0xFFFFFFFF =? 0.

Definition id_width (is_extended : bool) : Z := if is_extended then 29 else 11.

(** ** [get_baudrate_ex_message] and Python attribute lookup on a class *)

(** The namespace of [class Baudrate(WORD)]: only the [BAUD_*] names. *)
Definition Baudrate_dict : list (string * Z) :=
  [("BAUD_1MBit", 0x14); ("BAUD_800kBit", 0x16); ("BAUD_500kBit", 0x1C);
   ("BAUD_250kBit", 0x11C); ("BAUD_125kBit", 0x31C); ("BAUD_100kBit", 0x432F);
   ("BAUD_50kBit", 0x472F); ("BAUD_20kBit", 0x532F); ("BAUD_10kBit", 0x672F);
   ("BAUD_USE_BTREX", 0x0); ("BAUD_AUTO", -1)].

(** The attribute names Baudrate inherits from ctypes [c_ushort] and its
    bases ([_SimpleCData], [_CData], [object]); none is a [BAUDEX_*] name. *)
Definition ctypes_simple_attrs : list string :=
  ["value"; "_type_"; "from_param"; "from_address"; "from_buffer";
   "from_buffer_copy"; "in_dll"; "_b_base_"; "_b_needsfree_"; "_objects";
   "__ctypes_from_outparam__"; "__reduce__"; "__setstate__"; "__init__";
   "__new__"; "__repr__"; "__bool__"; "__class__"; "__doc__"; "__module__"].

Inductive PyExc := AttributeError (owner attr : string).

Inductive pyresult (A : Type) := PyOk (a : A) | PyRaise (e : PyExc).
Arguments PyOk {A} a.
Arguments PyRaise {A} e.

Fixpoint str_assoc (k : string) (d : list (string * Z)) : option Z :=
  match d with
  | [] => None
  | (k', v) :: t => if String.eqb k k' then Some v else str_assoc k t
  end.

(** [Baudrate.<attr>]: the class namespace first, then the ctypes bases
    (whose attributes are not integer constants, so they are not needed
    as values here: any hit there is not a baud-rate code). *)
Definition getattr_Baudrate (attr : string) : pyresult Z :=
  match str_assoc attr Baudrate_dict with
  | Some v => PyOk v
  | None =>
      if existsb (String.eqb attr) ctypes_simple_attrs then PyOk 0
      else PyRaise (AttributeError "Baudrate" attr)
  end.

(** The dict display of [get_baudrate_ex_message], as written in the
    source: attribute name of each key (read on [Baudrate]) and message. *)
Definition baudrate_ex_msgs_src : list (string * string) :=
  [("BAUDEX_AUTO", "auto baudrate");
   ("BAUDEX_10kBit", "10 kBit/sec"); ("BAUDEX_SP2_10kBit", "10 kBit/sec");
   ("BAUDEX_20kBit", "20 kBit/sec"); ("BAUDEX_SP2_20kBit", "20 kBit/sec");
   ("BAUDEX_50kBit", "50 kBit/sec"); ("BAUDEX_SP2_50kBit", "50 kBit/sec");
   ("BAUDEX_100kBit", "100 kBit/sec"); ("BAUDEX_SP2_100kBit", "100 kBit/sec");
   ("BAUDEX_125kBit", "125 kBit/sec"); ("BAUDEX_SP2_125kBit", "125 kBit/sec");
   ("BAUDEX_250kBit", "250 kBit/sec"); ("BAUDEX_SP2_250kBit", "250 kBit/sec");
   ("BAUDEX_500kBit", "500 kBit/sec"); ("BAUDEX_SP2_500kBit", "500 kBit/sec");
   ("BAUDEX_800kBit", "800 kBit/sec"); ("BAUDEX_SP2_800kBit", "800 kBit/sec");
   ("BAUDEX_1MBit", "1 MBit/s"); ("BAUDEX_SP2_1MBit", "1 MBit/s");
   ("BAUDEX_USE_BTR01", "BTR0/BTR1 is used")].

(** Evaluating a dict display left to right: each key expression
    [Baudrate.<attr>] is evaluated before its value. *)
Fixpoint eval_dict_display (entries : list (string * string))
  : pyresult (list (Z * string)) :=
  match entries with
  | [] => PyOk []
  | (attr, msg) :: rest =>
      match getattr_Baudrate attr with
      | PyRaise e => PyRaise e
      | PyOk k =>
          match eval_dict_display rest with
          | PyRaise e => PyRaise e
          | PyOk d => PyOk ((k, msg) :: d)
          end
      end
  end.

(** [dict.get(k, default)] on a dict built from a display: a later
    duplicate key overrides an earlier one. *)
Fixpoint z_assoc {A} (k : Z) (d : list (Z * A)) : option A :=
  match d with
  | [] => None
  | (k', v) :: t => if k =? k' then Some v else z_assoc k t
  end.

(** [def get_baudrate_ex_message(baudrate_ex)] *)
Definition get_baudrate_ex_message (baudrate_ex : Z) : pyresult string :=
  match eval_dict_display baudrate_ex_msgs_src with
  | PyRaise e => PyRaise e
  | PyOk d =>
      PyOk (match z_assoc baudrate_ex (rev d) with
            | Some m => m
            | None => "BTR is unknown (user specific)"
            end)
  end.

(** ** [get_can_status_message] and [get_baudrate_message] *)

(** [class CanStatus(WORD)] and the dict [status_msgs], in its order. *)
Definition CANERR_OK : Z := 0x0.

Definition status_msgs : list (Z * string) :=
  [(0x400, "Transmit message lost"); (0x200, "Memory test failed");
   (0x100, "Register test failed"); (0x80, "Transmit queue is full");
   (0x40, "Receive queue overrun"); (0x20, "Receive queue is empty");
   (0x10, "Bus Off"); (0x8, "Error Passive"); (0x4, "Warning Limit");
   (0x2, "Rx-buffer is full"); (0x1, "Tx-buffer is full")].

(** [def get_can_status_message(can_status)]:
    ["OK" if can_status == CANERR_OK else ", ".join(msg for status, msg in
    status_msgs.items() if can_status & status)]. *)
Definition get_can_status_message (can_status : Z) : string :=
  if can_status =? CANERR_OK then "OK"
  else String.concat ", "
         (map snd (filter (fun kv => negb (Z.land can_status (fst kv) =? 0)) status_msgs)).

(** The dict display of [get_baudrate_message]: keys read on [Baudrate]. *)
Definition baudrate_msgs_src : list (string * string) :=
  [("BAUD_AUTO", "auto baudrate"); ("BAUD_10kBit", "10 kBit/sec");
   ("BAUD_20kBit", "20 kBit/sec"); ("BAUD_50kBit", "50 kBit/sec");
   ("BAUD_100kBit", "100 kBit/sec"); ("BAUD_125kBit", "125 kBit/sec");
   ("BAUD_250kBit", "250 kBit/sec"); ("BAUD_500kBit", "500 kBit/sec");
   ("BAUD_800kBit", "800 kBit/sec"); ("BAUD_1MBit", "1 MBit/s");
   ("BAUD_USE_BTREX", "BTR Ext is used")].

(** [def get_baudrate_message(baudrate)] *)
Definition get_baudrate_message (baudrate : Z) : pyresult string :=
  match eval_dict_display baudrate_msgs_src with
  | PyRaise e => PyRaise e
  | PyOk d =>
      PyOk (match z_assoc baudrate (rev d) with
            | Some m => m
            | None => "BTR is unknown (user specific)"
            end)
  end.

(** ** [HardwareInfoEx] and the capability checks *)

(** [class HardwareInfoEx(Structure)]: every field a [DWORD] or [BYTE]. *)
Record HardwareInfoEx := {
  m_dwSize : Z; m_UcanHandle : Z; m_bDeviceNr : Z; m_dwSerialNr : Z;
  m_dwFwVersionEx : Z; m_dwProductCode : Z;
  m_dwUniqueId0 : Z; m_dwUniqueId1 : Z; m_dwUniqueId2 : Z; m_dwUniqueId3 : Z;
  m_dwFlags : Z
}.

Definition PRODCODE_PID_TWO_CHA : Z := 0x1.
Definition PRODCODE_PID_TERM : Z := 0x1.
Definition PRODCODE_PID_RBUSER : Z := 0x1.
Definition PRODCODE_PID_RBCAN : Z := 0x1.
Definition PRODCODE_PID_G4 : Z := 0x20.
Definition PRODCODE_MASK_PID : Z := 0xFFFF.
Definition PRODCODE_PID_MULTIPORT : Z := 0x1103.
Definition PRODCODE_PID_BASIC : Z := 0x1104.
Definition PRODCODE_PID_RESERVED1 : Z := 0x1144.

(** A Python result of these checks: a [bool] or an [int] (the
    checks return [x & mask] or the operand of an [and]). *)
Inductive pyobj := PBool (b : bool) | PInt (z : Z).

Definition truthy (o : pyobj) : bool :=
  match o with PBool b => b | PInt z => negb (z =? 0) end.

(** Python's [a and b] and [not a]. *)
Definition py_and (a : pyobj) (b : pyobj) : pyobj := if truthy a then b else a.
Definition py_not (a : pyobj) : pyobj := PBool (negb (truthy a)).

Definition check_is_systec (hw : HardwareInfoEx) : pyobj :=
  PBool (Z.land (m_dwProductCode hw) PRODCODE_MASK_PID >=? PRODCODE_PID_MULTIPORT).

Definition check_is_G4 (hw : HardwareInfoEx) : pyobj :=
  PInt (Z.land (m_dwProductCode hw) PRODCODE_PID_G4).

Definition check_is_G3 (hw : HardwareInfoEx) : pyobj :=
  py_and (check_is_systec hw) (py_not (check_is_G4 hw)).

Definition check_support_cyclic_msg (hw : HardwareInfoEx) : pyobj :=
  py_and (check_is_systec hw) (PBool (check_version_is_equal_or_higher (m_dwFwVersionEx hw) 3 6)).

Definition check_support_two_channel (hw : HardwareInfoEx) : pyobj :=
  py_and (check_is_systec hw) (PInt (Z.land (m_dwProductCode hw) PRODCODE_PID_TWO_CHA)).

Definition check_support_term_resistor (hw : HardwareInfoEx) : pyobj :=
  PInt (Z.land (m_dwProductCode hw) PRODCODE_PID_TERM).

Definition check_support_user_port (hw : HardwareInfoEx) : pyobj :=
  py_and
    (py_and (PBool (negb (Z.land (m_dwProductCode hw) PRODCODE_MASK_PID =? PRODCODE_PID_BASIC)))
            (PBool (negb (Z.land (m_dwProductCode hw) PRODCODE_MASK_PID =? PRODCODE_PID_RESERVED1))))
    (PBool (check_version_is_equal_or_higher (m_dwFwVersionEx hw) 2 16)).

Definition check_support_rb_user_port (hw : HardwareInfoEx) : pyobj :=
  PInt (Z.land (m_dwProductCode hw) PRODCODE_PID_RBUSER).

Definition check_support_rb_can_port (hw : HardwareInfoEx) : pyobj :=
  PInt (Z.land (m_dwProductCode hw) PRODCODE_PID_RBCAN).

Definition check_support_ucannet (hw : HardwareInfoEx) : pyobj :=
  py_and (check_is_systec hw) (PBool (check_version_is_equal_or_higher (m_dwFwVersionEx hw) 3 8)).

(** ** ctypes structures: [CanMsg] and [InitCanParam] *)

(** The Python exceptions ctypes raises here. *)
Inductive CtypesError := IndexError | TypeError.

Inductive cresult (A : Type) := COk (a : A) | CRaise (e : CtypesError).
Arguments COk {A} a.
Arguments CRaise {A} e.

(** [(BYTE * 8)( *data)]: each item stored as a [c_ubyte] (taken mod
    256), the rest zero; more than 8 initializers raise [IndexError]. *)
Definition BYTE_array_8 (data : list Z) : cresult (list Z) :=
  if Nat.leb (List.length data) 8
  then COk (map (fun b => b mod 256) data ++ List.repeat 0 (8 - List.length data))%list
  else CRaise IndexError.

(** [class CanMsg(Structure)] *)
Record CanMsg := {
  m_dwID : Z;
  m_bFF : Z;
  m_bDLC : Z;
  m_bData : list Z;
  m_dwTime : Z
}.

(** [def __init__(self, id=0, frame_format=MsgFrameFormat.MSG_FF_STD, data=[])]:
    the arguments of [super().__init__] are evaluated left to right, then
    stored in the [DWORD], [BYTE] and [BYTE * 8] fields. *)
Definition CanMsg_init (id frame_format : Z) (data : list Z) : cresult CanMsg :=
  let dlc := Z.of_nat (List.length data) in
  match BYTE_array_8 data with
  | CRaise e => CRaise e
  | COk arr =>
      COk {| m_dwID := id mod 2 ^ 32; m_bFF := frame_format mod 256;
             m_bDLC := dlc mod 256; m_bData := arr; m_dwTime := 0 |}
  end.

(** [@property id] and [@property data]: [self.m_bData[:self.m_bDLC]]. *)
Definition CanMsg_id (m : CanMsg) : Z := m_dwID m.
Definition CanMsg_data (m : CanMsg) : list Z := firstn (Z.to_nat (m_bDLC m)) (m_bData m).


Module InitCanParam.

(** [class InitCanParam(Structure)], [_pack_ = 1]. *)
Record t := {
  m_dwSize : Z;
  m_bMode : Z;
  m_bBTR0 : Z;
  m_bBTR1 : Z;
  m_bOCR : Z;
  m_dwAMR : Z;
  m_dwACR : Z;
  m_dwBaudrate : Z;
  m_wNrOfRxBufferEntries : Z;
  m_wNrOfTxBufferEntries : Z
}.

(** [sizeof(InitCanParam)]: 4 + 1 + 1 + 1 + 1 + 4 + 4 + 4 + 2 + 2. *)
Definition sizeof : Z := 24.

(** [def __init__(self, mode, BTR, OCR, AMR, ACR, baudrate, rx_buffer_entries, tx_buffer_entries)] *)
Definition init (mode BTR OCR AMR ACR baudrate rx_buffer_entries tx_buffer_entries : Z) : t :=
  {| m_dwSize := sizeof; m_bMode := mode mod 256;
     m_bBTR0 := Z.shiftr BTR 8 mod 256; m_bBTR1 := BTR mod 256;
     m_bOCR := OCR mod 256; m_dwAMR := AMR mod 2 ^ 32; m_dwACR := ACR mod 2 ^ 32;
     m_dwBaudrate := baudrate mod 2 ^ 32;
     m_wNrOfRxBufferEntries := rx_buffer_entries mod 2 ^ 16;
     m_wNrOfTxBufferEntries := tx_buffer_entries mod 2 ^ 16 |}.

(** Getter and setter bodies of the properties, as written in the class. *)
Definition get_mode (p : t) : Z := m_bMode p.
Definition set_mode (p : t) (v : Z) : t :=
  {| m_dwSize := m_dwSize p; m_bMode := v mod 256; m_bBTR0 := m_bBTR0 p;
     m_bBTR1 := m_bBTR1 p; m_bOCR := m_bOCR p; m_dwAMR := m_dwAMR p; m_dwACR := m_dwACR p;
     m_dwBaudrate := m_dwBaudrate p; m_wNrOfRxBufferEntries := m_wNrOfRxBufferEntries p;
     m_wNrOfTxBufferEntries := m_wNrOfTxBufferEntries p |}.
Definition get_BTR (p : t) : Z := Z.lor (Z.shiftl (m_bBTR0 p) 8) (m_bBTR1 p).
Definition set_BTR (p : t) (v : Z) : t :=
  {| m_dwSize := m_dwSize p; m_bMode := m_bMode p; m_bBTR0 := Z.shiftr v 8 mod 256;
     m_bBTR1 := v mod 256; m_bOCR := m_bOCR p; m_dwAMR := m_dwAMR p; m_dwACR := m_dwACR p;
     m_dwBaudrate := m_dwBaudrate p; m_wNrOfRxBufferEntries := m_wNrOfRxBufferEntries p;
     m_wNrOfTxBufferEntries := m_wNrOfTxBufferEntries p |}.
Definition get_OCR (p : t) : Z := m_bOCR p.
Definition set_OCR (p : t) (v : Z) : t :=
  {| m_dwSize := m_dwSize p; m_bMode := m_bMode p; m_bBTR0 := m_bBTR0 p;
     m_bBTR1 := m_bBTR1 p; m_bOCR := v mod 256; m_dwAMR := m_dwAMR p; m_dwACR := m_dwACR p;
     m_dwBaudrate := m_dwBaudrate p; m_wNrOfRxBufferEntries := m_wNrOfRxBufferEntries p;
     m_wNrOfTxBufferEntries := m_wNrOfTxBufferEntries p |}.
Definition get_baudrate (p : t) : Z := m_dwBaudrate p.
Definition set_baudrate (p : t) (v : Z) : t :=
  {| m_dwSize := m_dwSize p; m_bMode := m_bMode p; m_bBTR0 := m_bBTR0 p;
     m_bBTR1 := m_bBTR1 p; m_bOCR := m_bOCR p; m_dwAMR := m_dwAMR p; m_dwACR := m_dwACR p;
     m_dwBaudrate := v mod 2 ^ 32; m_wNrOfRxBufferEntries := m_wNrOfRxBufferEntries p;
     m_wNrOfTxBufferEntries := m_wNrOfTxBufferEntries p |}.
Definition get_rx_buffer_entries (p : t) : Z := m_wNrOfRxBufferEntries p.
Definition set_rx_buffer_entries (p : t) (v : Z) : t :=
  {| m_dwSize := m_dwSize p; m_bMode := m_bMode p; m_bBTR0 := m_bBTR0 p;
     m_bBTR1 := m_bBTR1 p; m_bOCR := m_bOCR p; m_dwAMR := m_dwAMR p; m_dwACR := m_dwACR p;
     m_dwBaudrate := m_dwBaudrate p; m_wNrOfRxBufferEntries := v mod 2 ^ 16;
     m_wNrOfTxBufferEntries := m_wNrOfTxBufferEntries p |}.
Definition get_tx_buffer_entries (p : t) : Z := m_wNrOfTxBufferEntries p.
Definition set_tx_buffer_entries (p : t) (v : Z) : t :=
  {| m_dwSize := m_dwSize p; m_bMode := m_bMode p; m_bBTR0 := m_bBTR0 p;
     m_bBTR1 := m_bBTR1 p; m_bOCR := m_bOCR p; m_dwAMR := m_dwAMR p; m_dwACR := m_dwACR p;
     m_dwBaudrate := m_dwBaudrate p; m_wNrOfRxBufferEntries := m_wNrOfRxBufferEntries p;
     m_wNrOfTxBufferEntries := v mod 2 ^ 16 |}.

(** A Python [property] object: a getter and an optional setter. *)
Record property := { fget : t -> Z; fset : option (t -> Z -> t) }.

(** The decorated definitions of the class body:
    [@property def name] binds [name] to [property(getter)];
    [@src.setter def name] binds [name] to [src] (the property currently
    bound to [src]) with the setter replaced. *)
Inductive class_stmt :=
| PropertyDef (name : string) (getter : t -> Z)
| SetterDef (name src : string) (setter : t -> Z -> t).

(** The class namespace, most recent binding first. *)
Fixpoint ns_lookup (name : string) (ns : list (string * property)) : option property :=
  match ns with
  | [] => None
  | (n, p) :: rest => if String.eqb name n then Some p else ns_lookup name rest
  end.

Definition exec_stmt (ns : list (string * property)) (st : class_stmt)
  : option (list (string * property)) :=
  match st with
  | PropertyDef name g => Some ((name, {| fget := g; fset := None |}) :: ns)
  | SetterDef name src f =>
      match ns_lookup src ns with
      | Some p => Some ((name, {| fget := fget p; fset := Some f |}) :: ns)
      | None => None
      end
  end.

Fixpoint exec_body (ns : list (string * property)) (body : list class_stmt)
  : option (list (string * property)) :=
  match body with
  | [] => Some ns
  | st :: rest => match exec_stmt ns st with
                  | Some ns' => exec_body ns' rest
                  | None => None
                  end
  end.

(** The property definitions of the class body, in source order. *)
Definition body : list class_stmt :=
  [PropertyDef "mode" get_mode; SetterDef "mode" "mode" set_mode;
   PropertyDef "BTR" get_BTR; SetterDef "BTR" "BTR" set_BTR;
   PropertyDef "OCR" get_OCR; SetterDef "OCR" "OCR" set_OCR;
   PropertyDef "baudrate" get_baudrate; SetterDef "baudrate" "baudrate" set_baudrate;
   PropertyDef "rx_buffer_entries" get_rx_buffer_entries;
   SetterDef "rx_buffer_entries" "rx_buffer_entries" set_rx_buffer_entries;
   PropertyDef "tx_buffer_entries" get_tx_buffer_entries;
   SetterDef "tx_buffer_entries" "rx_buffer_entries" set_tx_buffer_entries].

Definition namespace : list (string * property) :=
  match exec_body [] body with Some ns => ns | None => [] end.

(** Reading [param.<name>] and assigning [param.<name> = v]; [None]
    stands for the [AttributeError] of a missing name or setter. *)
Definition getattr (p : t) (name : string) : option Z :=
  match ns_lookup name namespace with
  | Some pr => Some (fget pr p)
  | None => None
  end.

Definition setattr (p : t) (name : string) (v : Z) : option t :=
  match ns_lookup name namespace with
  | Some {| fset := Some f |} => Some (f p v)
  | _ => None
  end.

End InitCanParam.

(** ** Event dispatch of the native callbacks *)

(** [class CbEvent(BYTE)] *)
Definition EVENT_INITHW : Z := 0.
Definition EVENT_init_can : Z := 1.
Definition EVENT_RECEIVE : Z := 2.
Definition EVENT_STATUS : Z := 3.
Definition EVENT_DEINIT_CAN : Z := 4.
Definition EVENT_DEINITHW : Z := 5.
Definition EVENT_CONNECT : Z := 6.
Definition EVENT_DISCONNECT : Z := 7.
Definition EVENT_FATALDISCON : Z := 8.

(** The overridable event methods of [USBCanServer], with their
    arguments. *)
Inductive event_hook :=
| init_hw_event
| init_can_event (channel : Z)
| can_msg_received_event (channel : Z)
| status_event (channel : Z)
| deinit_can_event (channel : Z)
| deinit_hw_event
| fatal_disconnect_event (param : Z)
| connect_event
| disconnect_event.

(** [def _connect_control(self, event, param, arg)]: the hook it calls, if any. *)
Definition _connect_control (event param : Z) : option event_hook :=
  if event =? EVENT_FATALDISCON then Some (fatal_disconnect_event param)
  else if event =? EVENT_CONNECT then Some connect_event
  else if event =? EVENT_DISCONNECT then Some disconnect_event
  else None.

(** [def _callback(self, handle, event, channel, arg)] *)
Definition _callback (handle event channel : Z) : option event_hook :=
  if event =? EVENT_INITHW then Some init_hw_event
  else if event =? EVENT_init_can then Some (init_can_event channel)
  else if event =? EVENT_RECEIVE then Some (can_msg_received_event channel)
  else if event =? EVENT_STATUS then Some (status_event channel)
  else if event =? EVENT_DEINIT_CAN then Some (deinit_can_event channel)
  else if event =? EVENT_DEINITHW then Some deinit_hw_event
  else None.

(** * Theorems *)

(** ** Small facts on the models *)

Example check_result_nodata :
  check_result WARN_NODATA "UcanReadCanMsgEx" [0] =
  ([{| w_result := 0x80; w_func := "UcanReadCanMsgEx"; w_args := [0] |}], Returned 0x80).
Proof. reflexivity. Qed.

Example minor_of_0x1002 : convert_to_major_ver 0x1002 = 2 /\ convert_to_minor_ver 0x1002 = 16.
Proof. split; reflexivity. Qed.

Lemma shiftr_land_minor (v : Z) :
  convert_to_minor_ver v = Z.land (Z.shiftr v 8) 0xFF.
Proof.
  unfold convert_to_minor_ver. rewrite Z.shiftr_land. reflexivity.
Qed.

(** ** C2 *)

(** C2: on every code, [check_error] holds exactly for the nonzero codes
    below the warning start 0x80, [check_warning] exactly for the codes
    at or above 0x80 (so the two never hold together), and
    [check_error_cmd] exactly on the firmware band [0x40, 0x80). *)
Theorem return_code_bands (c : Z) :
  (check_error c = true <-> c <> 0 /\ c < 0x80) /\
  (check_warning c = true <-> 0x80 <= c) /\
  (check_error c && check_warning c = false) /\
  (check_error_cmd c = true <-> 0x40 <= c < 0x80).
Proof.
  unfold check_error, check_warning, check_error_cmd, SUCCESSFUL, WARNING, ERRCMD.
  rewrite !Z.geb_leb.
  destruct (Z.eqb_spec c 0), (Z.ltb_spec c 128), (Z.leb_spec 128 c), (Z.leb_spec 64 c);
    simpl; intuition (try lia; try discriminate).
Qed.

(** ** C3 *)

(** C3: [check_result] logs a warning and returns the result for a
    warning-band code, raises [USBCanCmdError] with the function, code and
    arguments for a firmware-band code, raises [USBCanError] with the same
    payload for any other nonzero code below 0x80, and returns code 0
    without logging or raising. *)
Theorem check_result_classification (c : Z) (func : func_name) (args : arguments) :
  (0x80 <= c ->
     check_result c func args =
     ([{| w_result := c; w_func := func; w_args := args |}], Returned c)) /\
  (0x40 <= c < 0x80 ->
     check_result c func args = ([], Raised (USBCanCmdError c func args))) /\
  (c <> 0 /\ c < 0x40 ->
     check_result c func args = ([], Raised (USBCanError c func args))) /\
  check_result 0 func args = ([], Returned 0).
Proof.
  destruct (return_code_bands c) as (Herr & Hwarn & _ & Hcmd).
  unfold check_result.
  repeat split; intros H.
  - rewrite (proj2 Hwarn H). reflexivity.
  - assert (W : check_warning c = false) by (apply not_true_iff_false; rewrite Hwarn; lia).
    rewrite W, (proj2 Herr ltac:(lia)), (proj2 Hcmd H). reflexivity.
  - assert (W : check_warning c = false) by (apply not_true_iff_false; rewrite Hwarn; lia).
    assert (C : check_error_cmd c = false) by (apply not_true_iff_false; rewrite Hcmd; lia).
    rewrite W, (proj2 Herr ltac:(lia)), C. reflexivity.
Qed.

(** ** C4 *)

(** C4: [check_valid_rx_can_msg] and [check_tx_ok] hold exactly for 0 and
    the codes strictly above 0x80 (not for [WARN_NODATA] = 0x80 itself);
    [check_tx_success] holds exactly for 0 and [check_tx_not_all] exactly
    for [WARN_TXLIMIT] = 0x91. *)
Theorem completion_predicates (c : Z) :
  (check_valid_rx_can_msg c = true <-> c = 0 \/ 0x80 < c) /\
  (check_tx_ok c = true <-> c = 0 \/ 0x80 < c) /\
  check_valid_rx_can_msg WARN_NODATA = false /\
  check_tx_ok WARN_NODATA = false /\
  (check_tx_success c = true <-> c = 0) /\
  (check_tx_not_all c = true <-> c = 0x91).
Proof.
  unfold check_valid_rx_can_msg, check_tx_ok, check_tx_success, check_tx_not_all,
    SUCCESSFUL, WARNING, WARN_TXLIMIT, WARN_NODATA.
  rewrite Z.gtb_ltb.
  destruct (Z.eqb_spec c 0), (Z.ltb_spec 128 c), (Z.eqb_spec c 145);
    simpl; intuition (try lia; try discriminate).
Qed.

(** ** C7 *)

(** C7: with major = [version & 0xFF] and minor = [(version >> 8) & 0xFF],
    the encoding of 2.16 (0x1002) is equal or higher than 2.16 and 1.99,
    not than 2.17 or 3.0; and in general the check holds iff the major is
    strictly greater, or equal with a minor at least the compared one. *)
Theorem version_compare (version cmp_major cmp_minor : Z) :
  (check_version_is_equal_or_higher 0x1002 2 16 = true /\
   check_version_is_equal_or_higher 0x1002 1 99 = true /\
   check_version_is_equal_or_higher 0x1002 2 17 = false /\
   check_version_is_equal_or_higher 0x1002 3 0 = false) /\
  (check_version_is_equal_or_higher version cmp_major cmp_minor = true <->
   Z.land version 0xFF > cmp_major \/
   (Z.land version 0xFF = cmp_major /\ Z.land (Z.shiftr version 8) 0xFF >= cmp_minor)).
Proof.
  split; [repeat split; reflexivity|].
  unfold check_version_is_equal_or_higher.
  rewrite shiftr_land_minor. unfold convert_to_major_ver.
  rewrite Z.gtb_ltb, Z.geb_leb.
  destruct (Z.ltb_spec cmp_major (Z.land version 255)),
    (Z.eqb_spec (Z.land version 255) cmp_major),
    (Z.leb_spec cmp_minor (Z.land (Z.shiftr version 8) 255));
    simpl; intuition (try lia; try discriminate).
Qed.

(** ** C10 *)

(** C10: [get_baudrate_ex_message] raises [AttributeError] on every input
    before producing a string: its dict reads [Baudrate.BAUDEX_AUTO], and
    [Baudrate] defines only [BAUD_*] names. *)
Theorem get_baudrate_ex_message_raises (baudrate_ex : Z) :
  get_baudrate_ex_message baudrate_ex = PyRaise (AttributeError "Baudrate" "BAUDEX_AUTO").
Proof. reflexivity. Qed.

(** ** C8 *)

Lemma land_lxor_ones (a b n : Z) :
  Z.land (Z.lxor a b) (Z.ones n) = Z.lxor (Z.land a (Z.ones n)) (Z.land b (Z.ones n)).
Proof.
  apply Z.bits_inj'; intros i Hi.
  rewrite !Z.land_spec, !Z.lxor_spec, !Z.land_spec.
  destruct (Z.testbit a i), (Z.testbit b i), (Z.testbit (Z.ones n) i); reflexivity.
Qed.

(** Two identifiers below [2^w], shifted left by [k] with [w + k <= 32],
    agree on the register bits [k..31] iff they are equal. *)
Lemma shifted_agree_iff (k w a b : Z) :
  0 <= k -> 0 <= w -> w + k <= 32 -> 0 <= a < 2 ^ w -> 0 <= b < 2 ^ w ->
  (Z.land (Z.lxor (Z.shiftl a k) (Z.shiftl b k)) (Z.shiftl (Z.ones (32 - k)) k) =? 0) = true
  <-> a = b.
Proof.
  intros Hk Hw Hwk Ha Hb.
  rewrite <- Z.shiftl_lxor, <- Z.shiftl_land, land_lxor_ones, !Z.land_ones by lia.
  assert (Hp : 2 ^ w <= 2 ^ (32 - k)) by (apply Z.pow_le_mono_r; lia).
  rewrite (Z.mod_small a), (Z.mod_small b) by lia.
  rewrite Z.shiftl_mul_pow2 by lia.
  rewrite Z.eqb_eq. split; intros H.
  - apply Z.lxor_eq_0_iff.
    apply Z.mul_eq_0 in H. destruct H as [H|H]; [exact H|].
    pose proof (Z.pow_pos_nonneg 2 k ltac:(lia) Hk). lia.
  - subst b. rewrite Z.lxor_nilpotent. reflexivity.
Qed.

(** C8: for an identifier [id] of the frame's width (11 or 29 bits), the
    pair AMR = [calculate_amr is_extended id id], ACR =
    [calculate_acr is_extended id id] (default [rtr_only = False],
    [rtr_too = True]) accepts an identifier [id'] of the same width iff
    [id' = id]. *)
Theorem single_id_filter (is_extended : bool) (id id' : Z)
    (Hid : 0 <= id < 2 ^ id_width is_extended)
    (Hid' : 0 <= id' < 2 ^ id_width is_extended) :
  acceptance_test is_extended
    (calculate_amr is_extended id id false true)
    (calculate_acr is_extended id id false true) id' = true
  <-> id' = id.
Proof.
  unfold acceptance_test, calculate_amr, calculate_acr, id_image.
  rewrite Z.lxor_nilpotent, Z.land_diag, Z.shiftl_0_l.
  destruct is_extended; cbn [id_width negb andb] in *; rewrite Z.lor_0_r, <- Z.land_assoc.
  - change (Z.land (Z.lnot 7) 0xFFFFFFFF) with (Z.shiftl (Z.ones (32 - 3)) 3).
    apply shifted_agree_iff with (w := 29); lia.
  - change (Z.land (Z.lnot 0x1FFFFF) 0xFFFFFFFF) with (Z.shiftl (Z.ones (32 - 21)) 21).
    apply shifted_agree_iff with (w := 11); lia.
Qed.

Lemma single_id_filter_witness :
  (0 <= 0x123 < 2 ^ id_width false /\ 0 <= 0x123 < 2 ^ id_width false) /\
  (acceptance_test false (calculate_amr false 0x123 0x123 false true)
     (calculate_acr false 0x123 0x123 false true) 0x123 = true <-> 0x123 = 0x123).
Proof.
  split; [split; simpl; lia|].
  apply (single_id_filter false 0x123 0x123); simpl; lia.
Defined.

(** ** Session lemmas *)

Open Scope list_scope.

Definition clear_all (d : list (Z * bool)) : list (Z * bool) :=
  map (fun kv => (fst kv, false)) d.

(** Every channel flag of the dict is [False]. *)
Definition chan_flags_clear (s : Server) : bool :=
  forallb (fun kv => negb (snd kv)) (_ch_is_initialized s).

Lemma call_keeps_self rc c w s o w' s' :
  call rc c (w, s) = (o, (w', s')) -> s' = s.
Proof.
  unfold call, lift. destruct (native rc c w) as [o1 w1]. intros H; inversion H; reflexivity.
Qed.

Lemma set_ch_set_ch s d1 d2 : set_ch (set_ch s d1) d2 = set_ch s d2.
Proof. destruct s; reflexivity. Qed.

Lemma set_ch_same s : set_ch s (_ch_is_initialized s) = s.
Proof. destruct s; reflexivity. Qed.

Lemma dict_set_app pre k v v' suf :
  ~ In k (map fst pre) -> dict_set k v (pre ++ (k, v') :: suf) = pre ++ (k, v) :: suf.
Proof.
  induction pre as [|[k0 v0] pre IH]; simpl; intros Hn.
  - rewrite Z.eqb_refl. reflexivity.
  - destruct (Z.eqb_spec k k0); [subst; tauto|].
    rewrite IH by tauto. reflexivity.
Qed.

Lemma map_fst_clear_all d : map fst (clear_all d) = map fst d.
Proof. unfold clear_all. rewrite map_map. reflexivity. Qed.

Lemma NoDup_app_key_notin (pre suf : list (Z * bool)) k v :
  NoDup (map fst (pre ++ (k, v) :: suf)) -> ~ In k (map fst pre).
Proof.
  rewrite map_app. simpl. intros H. apply NoDup_remove_2 in H.
  intros Hin. apply H. apply in_or_app. left. exact Hin.
Qed.

(** The channel loop of a hardware shutdown clears every visited entry
    and touches nothing else of [self]. *)
Lemma shutdown_channels_clears rc ch : forall suf pre w s w' s',
  _ch_is_initialized s = pre ++ suf ->
  NoDup (map fst (pre ++ suf)) ->
  shutdown_channels rc ch true suf (w, s) = (Returned tt, (w', s')) ->
  s' = set_ch s (pre ++ clear_all suf).
Proof.
  induction suf as [|[k v] suf IH]; intros pre w s w' s' Hd Hnd Hrun.
  - simpl in Hrun. inversion Hrun; subst.
    change (clear_all []) with (@nil (Z * bool)).
    rewrite app_nil_r in Hd. rewrite app_nil_r, <- Hd, set_ch_same. reflexivity.
  - cbn [shutdown_channels] in Hrun. rewrite orb_true_r, andb_true_r in Hrun.
    unfold bind at 1 in Hrun.
    assert (Hk : ~ In k (map fst pre)) by (eapply NoDup_app_key_notin; exact Hnd).
    destruct v.
    + unfold bind at 1, get_self in Hrun.
      unfold bind at 1 in Hrun.
      destruct (call rc (UcanDeinitCanEx (_handle s) k) (w, s)) as [[r|e] [w1 s1]] eqn:Ec;
        [|discriminate].
      apply call_keeps_self in Ec. subst s1.
      cbn [get_self put_self bind] in Hrun.
      rewrite Hd, dict_set_app in Hrun by exact Hk.
      apply IH with (pre := pre ++ [(k, false)]) in Hrun.
      * rewrite Hrun, set_ch_set_ch, <- app_assoc. reflexivity.
      * rewrite <- app_assoc. reflexivity.
      * rewrite <- app_assoc. rewrite !map_app in *. exact Hnd.
    + cbn [ret] in Hrun.
      apply IH with (pre := pre ++ [(k, false)]) in Hrun.
      * rewrite Hrun, <- app_assoc. reflexivity.
      * rewrite <- app_assoc. exact Hd.
      * rewrite <- app_assoc. exact Hnd.
Qed.

Lemma shutdown_channels_noop rc ch shw : forall items w s,
  forallb (fun kv => negb (snd kv)) items = true ->
  shutdown_channels rc ch shw items (w, s) = (Returned tt, (w, s)).
Proof.
  induction items as [|[k v] items IH]; intros w s H; [reflexivity|].
  simpl in H. apply andb_true_iff in H as [Hv H].
  destruct v; [discriminate|]. cbn [shutdown_channels andb]. unfold bind. cbn [ret].
  apply IH; exact H.
Qed.

Lemma clear_all_clear d : forallb (fun kv => negb (snd kv)) (clear_all d) = true.
Proof. induction d; simpl; auto. Qed.

Lemma dict_get_clear k d :
  forallb (fun kv => negb (snd kv)) d = true -> dict_get k d false = false.
Proof.
  induction d as [|[k' v] d IH]; simpl; [reflexivity|].
  intros H. apply andb_true_iff in H as [Hv H].
  destruct (k =? k'); [destruct v; [discriminate|reflexivity] | apply IH, H].
Qed.

(** A second [shutdown] finds nothing to do. *)
Lemma shutdown_when_clear rc ch shw w s :
  chan_flags_clear s = true -> _hw_is_initialized s = false ->
  shutdown rc ch shw (w, s) = (Returned tt, (w, s)).
Proof.
  intros Hc Hhw. unfold shutdown. unfold bind at 1, get_self.
  unfold bind at 1. rewrite shutdown_channels_noop by exact Hc.
  unfold bind, get_self. rewrite Hhw. reflexivity.
Qed.

(** ** Concrete sessions *)

(** The state of a session right after a successful [__init__] and
    [init_hardware] with both channels initialized. *)
Definition session_both_up : Server :=
  {| _handle := 3; _is_initialized := false; _hw_is_initialized := true;
     _ch_is_initialized := [(CHANNEL_CH0, true); (CHANNEL_CH1, true)];
     _callback_ref := 0; _connect_control_ref := Some (PyCallback 1) |}.

Definition process_start : World :=
  {| cls_connect_control_ref := PyNone; trace := []; log := []; next_obj := 0 |}.

(** A library that answers every call with [SUCCESSFUL]. *)
Definition driver_ok : list NativeCall -> NativeCall -> Z := fun _ _ => 0.

(** ** C6 *)

(** C6: [init_can] on a channel whose flag is already [True], and
    [init_hardware] when the hardware flag is already [True], issue no
    native call and change nothing: the process state (with its trace of
    calls) and every attribute of [self] come back as they were. *)
Theorem reinit_is_noop rc nh :
  (forall channel w s,
     dict_get channel (_ch_is_initialized s) false = true ->
     init_can rc channel (w, s) = (Returned tt, (w, s))) /\
  (forall serial device_number w s,
     _hw_is_initialized s = true ->
     init_hardware rc nh serial device_number (w, s) = (Returned tt, (w, s))).
Proof.
  split.
  - intros channel w s H. unfold init_can, bind, get_self. rewrite H. reflexivity.
  - intros serial dn w s H. unfold init_hardware, bind, get_self. rewrite H. reflexivity.
Qed.

(** ** C9 *)

(** The methods a caller can invoke on a session. *)
Inductive method :=
| MInitHardware (serial : option Z) (device_number : Z)
| MInitCan (channel : Z)
| MShutdown (channel : Z) (shutdown_hardware : bool)
| MOther (name : func_name) (args : arguments).

Definition run_method rc nh (m : method) : M (World * Server) unit :=
  match m with
  | MInitHardware sn dn => init_hardware rc nh sn dn
  | MInitCan ch => init_can rc ch
  | MShutdown ch shw => shutdown rc ch shw
  | MOther n a => other_method rc n a
  end.

(** The sessions a program can hold: built by [__init__], then changed by
    any sequence of method calls, a call that raised included (the object
    keeps what the method wrote before the exception). *)
Inductive reachable rc nh : World -> Server -> Prop :=
| reach_init w0 w s :
    USBCanServer_init rc w0 = (Returned s, w) -> reachable rc nh w s
| reach_step w s m (o : outcome unit) w' s' :
    reachable rc nh w s -> run_method rc nh m (w, s) = (o, (w', s')) ->
    reachable rc nh w' s'.

Lemma native_lift_keeps_self {A} (m : M World A) w s o w' s' :
  lift m (w, s) = (o, (w', s')) -> s' = s.
Proof. unfold lift. destruct (m w). intros H; inversion H; reflexivity. Qed.

Lemma init_is_initialized rc w0 s w :
  USBCanServer_init rc w0 = (Returned s, w) -> _is_initialized s = false.
Proof.
  unfold USBCanServer_init, bind, new_obj, get. cbn.
  destruct (cls_connect_control_ref w0); cbn.
  - match goal with |- context [native rc ?c ?w] => destruct (native rc c w) as [[r|e] w1] end;
      intros H; inversion H; reflexivity.
  - intros H; inversion H; reflexivity.
Qed.

(** Within a method, a native call leaves [self] alone. *)
Ltac call_keeps :=
  match goal with
  | E : context [call ?rc ?c (?w, ?s)] |- _ =>
      let r := fresh "r" in let e := fresh "e" in
      let w2 := fresh "w" in let s2 := fresh "s" in let Ec := fresh "Ec" in
      destruct (call rc c (w, s)) as [[r|e] [w2 s2]] eqn:Ec;
      apply call_keeps_self in Ec; subst s2
  end.

(** No method writes [_is_initialized]. *)
Lemma shutdown_channels_keeps_is_init rc ch shw : forall items w s o w' s',
  shutdown_channels rc ch shw items (w, s) = (o, (w', s')) ->
  _is_initialized s' = _is_initialized s.
Proof.
  induction items as [|[k v] items IH]; intros w s o w' s' H.
  - inversion H; reflexivity.
  - cbn [shutdown_channels] in H. unfold bind at 1 in H.
    destruct (v && ((k =? ch) || (ch =? CHANNEL_ALL) || shw)).
    + unfold bind at 1, get_self in H. unfold bind at 1 in H.
      call_keeps; cbn [bind get_self put_self] in H; [|inversion H; reflexivity].
      apply IH in H. rewrite H. destruct s; reflexivity.
    + cbn [ret] in H. eapply IH; exact H.
Qed.

Lemma run_method_keeps_is_init rc nh m w s o w' s' :
  run_method rc nh m (w, s) = (o, (w', s')) -> _is_initialized s' = _is_initialized s.
Proof.
  destruct m as [sn dn | ch | ch shw | n a]; cbn [run_method].
  - unfold init_hardware, bind at 1, get_self.
    destruct (negb (_hw_is_initialized s)); [|intros H; inversion H; reflexivity].
    unfold bind at 1.
    destruct (match sn with
              | Some x => call_init_hw rc nh (UcanInitHardwareEx2 x (_callback_ref s))
              | None => call_init_hw rc nh (UcanInitHardwareEx dn (_callback_ref s))
              end (w, s)) as [[r|e] [w1 s1]] eqn:Ec.
    + assert (Hs1 : _is_initialized s1 = _is_initialized s).
      { destruct sn; unfold call_init_hw in Ec; apply call_keeps_self in Ec; subst s1;
          destruct s; reflexivity. }
      cbn [bind get_self put_self]. intros H; inversion H; subst.
      rewrite <- Hs1. destruct s1; reflexivity.
    + intros H; inversion H; subst.
      destruct sn; unfold call_init_hw in Ec; apply call_keeps_self in Ec; subst;
        destruct s; reflexivity.
  - unfold init_can, bind at 1, get_self.
    destruct (negb (dict_get ch (_ch_is_initialized s) false));
      [|intros H; inversion H; reflexivity].
    unfold bind at 1. intros H. call_keeps; cbn [bind get_self put_self] in H;
      inversion H; subst; [destruct s|]; reflexivity.
  - unfold shutdown, bind at 1, get_self. unfold bind at 1.
    destruct (shutdown_channels rc ch shw (_ch_is_initialized s) (w, s))
      as [[[]|e] [w1 s1]] eqn:El; apply shutdown_channels_keeps_is_init in El;
      [|intros H; inversion H; subst; exact El].
    unfold bind at 1, get_self.
    destruct (_hw_is_initialized s1 && shw); [|intros H; inversion H; subst; exact El].
    unfold bind at 1. intros H. call_keeps; cbn [bind get_self put_self] in H;
      inversion H; subst; [destruct s1|]; exact El.
  - unfold other_method, bind at 1, get_self. unfold bind at 1. intros H.
    call_keeps; inversion H; reflexivity.
Qed.

(** C9: in every reachable session, after any sequence of calls and in
    particular right after a successful [init_hardware], the property
    [is_initialized] is [False]: only [__init__] writes [_is_initialized]. *)
Theorem is_initialized_always_false rc nh w s :
  reachable rc nh w s -> is_initialized s = false.
Proof.
  unfold is_initialized. induction 1 as [w0 w s Hi | w s m o w' s' _ IH Hrun].
  - eapply init_is_initialized; exact Hi.
  - rewrite (run_method_keeps_is_init rc nh m w s o w' s' Hrun). exact IH.
Qed.

(** The library writes handle 3 on a hardware-init call. *)
Definition handle_3 : list NativeCall -> Z := fun _ => 3.

(** A fresh session, then the same session after [init_hardware()]. *)
Definition start_session : World * Server :=
  match USBCanServer_init driver_ok process_start with
  | (Returned s, w) => (w, s)
  | (Raised _, w) => (w, session_both_up)
  end.

Definition after_init_hardware : World * Server :=
  snd (init_hardware driver_ok handle_3 None ANY_MODULE start_session).

Lemma is_initialized_always_false_witness :
  reachable driver_ok handle_3 (fst after_init_hardware) (snd after_init_hardware) /\
  _hw_is_initialized (snd after_init_hardware) = true /\
  is_initialized (snd after_init_hardware) = false.
Proof.
  assert (R : reachable driver_ok handle_3 (fst after_init_hardware) (snd after_init_hardware)).
  { apply (reach_step driver_ok handle_3 (fst start_session) (snd start_session)
             (MInitHardware None ANY_MODULE) (Returned tt)).
    - apply (reach_init driver_ok handle_3 process_start); reflexivity.
    - reflexivity. }
  split; [exact R | split; [reflexivity |]].
  exact (is_initialized_always_false driver_ok handle_3 _ _ R).
Defined.

(** ** C1 *)

(** Two sessions constructed one after the other in one process. *)
Definition construct_two rc : M World (Server * Server) :=
  a <- USBCanServer_init rc ;;
  b <- USBCanServer_init rc ;;
  ret (a, b).

Lemma native_keeps_cls_ref rc c w :
  cls_connect_control_ref (snd (native rc c w)) = cls_connect_control_ref w.
Proof.
  unfold native. destruct (check_result _ _ _). reflexivity.
Qed.

(** C1 (as the code behaves): [__init__] never writes the class attribute
    [USBCanServer._connect_control_ref]; it assigns the callback to the
    instance attribute, so the class attribute stays [None] and the guard
    [if self._connect_control_ref is None] is open again for the next
    instance.  With a library answering [SUCCESSFUL], constructing two
    sessions in a fresh process calls [UcanInitHwConnectControlEx] twice. *)
Theorem connect_control_installed_per_instance :
  (forall rc w,
     cls_connect_control_ref (snd (USBCanServer_init rc w)) = cls_connect_control_ref w) /\
  trace (snd (construct_two driver_ok process_start)) =
    [UcanInitHwConnectControlEx 3; UcanInitHwConnectControlEx 1].
Proof.
  split; [|reflexivity].
  intros rc w. unfold USBCanServer_init, bind, new_obj, get. cbn.
  destruct (cls_connect_control_ref w) eqn:Hw; cbn; [|exact Hw].
  pose proof (native_keeps_cls_ref rc (UcanInitHwConnectControlEx (next_obj (bump_obj w)))
                (bump_obj (bump_obj w))) as Hn.
  destruct (native rc _ _) as [[r|e] w1]; cbn in *; rewrite Hn; exact Hw.
Qed.

(** * Further properties of the module *)

(** ** Status and baud-rate messages *)

Lemma filter_all_false {A} (f : A -> bool) (l : list A) :
  (forall x, In x l -> f x = false) -> filter f l = [].
Proof.
  induction l as [|x t IH]; intros H; [reflexivity|].
  cbn. rewrite (H x (or_introl eq_refl)). apply IH. intros y Hy. apply H. right. exact Hy.
Qed.

Lemma concat_not_OK (l : list string) :
  Forall (fun m => exists c r, m = String c r /\ c <> "O"%char) l ->
  String.concat ", " l <> "OK".
Proof.
  intros H. destruct l as [|m t]; [discriminate|].
  inversion H as [|? ? (c & r & -> & Hc) _]; subst.
  destruct t as [|m' t']; cbn; intros E; injection E as E _; exact (Hc E).
Qed.

(** [get_can_status_message] answers ["OK"] exactly for the status 0:
    every message of a nonzero status is a join of messages none of
    which starts with an [O] (or the empty join). *)
Theorem get_can_status_message_OK_iff (can_status : Z) :
  get_can_status_message can_status = "OK" <-> can_status = 0.
Proof.
  unfold get_can_status_message, CANERR_OK.
  destruct (Z.eqb_spec can_status 0) as [E|E]; [tauto|].
  split; [|intros; contradiction].
  intros H. exfalso. revert H. apply concat_not_OK.
  apply Forall_forall. intros m Hm.
  apply in_map_iff in Hm as ([k m'] & <- & Hin). apply filter_In in Hin as [Hin _].
  cbn in Hin |- *.
  repeat (destruct Hin as [Hin|Hin]; [injection Hin as <- <-;
          eexists _, _; split; [reflexivity|discriminate]|]).
  contradiction.
Qed.

(** A nonzero status with none of the eleven known bits (0x7FF) set gives
    the empty message, not ["OK"]. *)
Theorem get_can_status_message_unknown_bits (can_status : Z)
    (Hnz : can_status <> 0) (Hbits : Z.land can_status 0x7FF = 0) :
  get_can_status_message can_status = "".
Proof.
  unfold get_can_status_message, CANERR_OK.
  destruct (Z.eqb_spec can_status 0) as [E|E]; [contradiction|].
  rewrite filter_all_false; [reflexivity|].
  intros [k m] Hin. cbn.
  assert (Hk : Z.land 0x7FF k = k).
  { cbn in Hin.
    repeat (destruct Hin as [Hin|Hin]; [injection Hin as <- _; reflexivity|]).
    contradiction. }
  rewrite <- Hk, Z.land_assoc, Hbits. reflexivity.
Qed.

Lemma get_can_status_message_unknown_bits_witness :
  (0x800 <> 0 /\ Z.land 0x800 0x7FF = 0) /\ get_can_status_message 0x800 = "".
Proof.
  split; [split; [discriminate|reflexivity]|].
  apply get_can_status_message_unknown_bits; [discriminate|reflexivity].
Defined.

Lemma z_assoc_None {A} (k : Z) (d : list (Z * A)) :
  z_assoc k d = None <-> ~ In k (map fst d).
Proof.
  induction d as [|[k' v] t IH]; cbn; [tauto|].
  destruct (Z.eqb_spec k k'); [subst; split; [discriminate|tauto]|].
  rewrite IH. intuition.
Qed.

Lemma z_assoc_In {A} (k : Z) (d : list (Z * A)) (v : A) :
  z_assoc k d = Some v -> In v (map snd d).
Proof.
  induction d as [|[k' v'] t IH]; cbn; [discriminate|].
  destruct (k =? k'); [injection 1 as ->; left; reflexivity|].
  intros H. right. exact (IH H).
Qed.

(** Unlike [get_baudrate_ex_message], [get_baudrate_message] never
    raises (every key of its dict is a [Baudrate] attribute), and it
    answers the fallback ["BTR is unknown (user specific)"] exactly for
    the values that are none of the [BAUD_*] constants. *)
Theorem get_baudrate_message_total (baudrate : Z) :
  (exists m, get_baudrate_message baudrate = PyOk m) /\
  (get_baudrate_message baudrate = PyOk "BTR is unknown (user specific)" <->
   ~ In baudrate (map snd Baudrate_dict)).
Proof.
  unfold get_baudrate_message.
  destruct (eval_dict_display baudrate_msgs_src) as [d|e] eqn:E;
    vm_compute in E; [|discriminate].
  injection E as <-.
  split; [eexists; reflexivity|].
  set (d := [(-1, "auto baudrate"); (26415, "10 kBit/sec"); (21295, "20 kBit/sec");
             (18223, "50 kBit/sec"); (17199, "100 kBit/sec"); (796, "125 kBit/sec");
             (284, "250 kBit/sec"); (28, "500 kBit/sec"); (22, "800 kBit/sec");
             (20, "1 MBit/s"); (0, "BTR Ext is used")]).
  assert (Hk : In baudrate (map fst (rev d)) <-> In baudrate (map snd Baudrate_dict)).
  { cbn. intuition. }
  rewrite <- Hk, <- z_assoc_None.
  destruct (z_assoc baudrate (rev d)) as [m|] eqn:Z; [|tauto].
  split; [|discriminate]. intros H. injection H as ->.
  apply z_assoc_In in Z. cbn in Z. intuition discriminate.
Qed.

(** ** Version numbers *)

Lemma version_fields (version : Z) :
  convert_to_major_ver version = version mod 2 ^ 8 /\
  convert_to_minor_ver version = (version / 2 ^ 8) mod 2 ^ 8 /\
  convert_to_release_ver version = (version / 2 ^ 16) mod 2 ^ 16.
Proof.
  unfold convert_to_major_ver, convert_to_release_ver.
  rewrite shiftr_land_minor.
  change 0xFF with (Z.ones 8). change 0xFFFF0000 with (Z.shiftl (Z.ones 16) 16).
  rewrite Z.shiftr_land, Z.shiftr_shiftl_l, Z.sub_diag, Z.shiftl_0_r by lia.
  rewrite !Z.land_ones, !Z.shiftr_div_pow2 by lia. auto.
Qed.

(** The three version fields of a 32-bit version word
    ([UcanGetFwVersion], [m_dwFwVersionEx]) split it without loss:
    [major + 256 * minor + 65536 * release] is the word, and a word built
    from fields in range decodes back to them. *)
Theorem version_fields_roundtrip (version major minor release : Z)
    (Hv : 0 <= version < 2 ^ 32)
    (Hf : 0 <= major < 256 /\ 0 <= minor < 256 /\ 0 <= release < 65536) :
  convert_to_major_ver version + 256 * convert_to_minor_ver version
    + 65536 * convert_to_release_ver version = version /\
  (convert_to_major_ver (major + 256 * minor + 65536 * release) = major /\
   convert_to_minor_ver (major + 256 * minor + 65536 * release) = minor /\
   convert_to_release_ver (major + 256 * minor + 65536 * release) = release).
Proof.
  split.
  - destruct (version_fields version) as (-> & -> & ->).
    change (2 ^ 8) with 256; change (2 ^ 16) with 65536.
    rewrite (Z.mod_small (version / 65536))
      by (split; [apply Z.div_pos|apply Z.div_lt_upper_bound]; lia).
    pose proof (Z.div_mod version 256 ltac:(lia)).
    pose proof (Z.div_mod (version / 256) 256 ltac:(lia)).
    rewrite Z.div_div in * by lia. change (256 * 256) with 65536 in *. lia.
  - destruct (version_fields (major + 256 * minor + 65536 * release)) as (-> & -> & ->).
    change (2 ^ 8) with 256; change (2 ^ 16) with 65536.
    set (v := major + 256 * minor + 65536 * release).
    assert (E1 : v / 256 = minor + 256 * release)
      by (symmetry; apply (Z.div_unique _ _ _ major); lia).
    assert (E2 : v / 65536 = release)
      by (symmetry; apply (Z.div_unique _ _ _ (major + 256 * minor)); lia).
    rewrite E1, E2.
    split; [symmetry; apply (Z.mod_unique _ _ (minor + 256 * release)); lia|].
    split; [symmetry; apply (Z.mod_unique _ _ release); lia|].
    apply Z.mod_small; lia.
Qed.

Lemma version_fields_roundtrip_witness :
  (0 <= 0x0A031002 < 2 ^ 32 /\ (0 <= 2 < 256 /\ 0 <= 16 < 256 /\ 0 <= 0x0A03 < 65536)) /\
  (convert_to_major_ver 0x0A031002 + 256 * convert_to_minor_ver 0x0A031002
     + 65536 * convert_to_release_ver 0x0A031002 = 0x0A031002 /\
   (convert_to_major_ver (2 + 256 * 16 + 65536 * 0x0A03) = 2 /\
    convert_to_minor_ver (2 + 256 * 16 + 65536 * 0x0A03) = 16 /\
    convert_to_release_ver (2 + 256 * 16 + 65536 * 0x0A03) = 0x0A03)).
Proof.
  split; [split; [lia|lia]|].
  apply (version_fields_roundtrip 0x0A031002 2 16 0x0A03); lia.
Defined.

(** [check_version_is_equal_or_higher] is monotone in the compared
    version: passing (major, minor) implies passing every version at most
    it in the (major, minor) order. *)
Lemma check_version_antimono (version a b a' b' : Z) :
  a' < a \/ (a' = a /\ b' <= b) ->
  check_version_is_equal_or_higher version a b = true ->
  check_version_is_equal_or_higher version a' b' = true.
Proof.
  unfold check_version_is_equal_or_higher.
  rewrite !Z.gtb_ltb, !Z.geb_leb.
  destruct (Z.ltb_spec a (convert_to_major_ver version)),
    (Z.eqb_spec (convert_to_major_ver version) a),
    (Z.leb_spec b (convert_to_minor_ver version)),
    (Z.ltb_spec a' (convert_to_major_ver version)),
    (Z.eqb_spec (convert_to_major_ver version) a'),
    (Z.leb_spec b' (convert_to_minor_ver version));
    cbn; intuition (try lia; try discriminate).
Qed.

(** ** Capability checks on [HardwareInfoEx] *)

(** A module that supports UCANnet ([check_support_ucannet], firmware
    3.8) also supports cyclic messages ([check_support_cyclic_msg],
    firmware 3.6). *)
Theorem ucannet_implies_cyclic_msg (hw : HardwareInfoEx)
    (H : truthy (check_support_ucannet hw) = true) :
  truthy (check_support_cyclic_msg hw) = true.
Proof.
  revert H. unfold check_support_ucannet, check_support_cyclic_msg, py_and.
  destruct (truthy (check_is_systec hw)); [|tauto].
  cbn. apply check_version_antimono. lia.
Qed.

Definition basic_G4_hw : HardwareInfoEx :=
  {| m_dwSize := 44; m_UcanHandle := 0; m_bDeviceNr := 0; m_dwSerialNr := 12345;
     m_dwFwVersionEx := 0x0A030805; m_dwProductCode := 0x1122;
     m_dwUniqueId0 := 0; m_dwUniqueId1 := 0; m_dwUniqueId2 := 0; m_dwUniqueId3 := 0;
     m_dwFlags := 0 |}.

Lemma ucannet_implies_cyclic_msg_witness :
  truthy (check_support_ucannet basic_G4_hw) = true /\
  truthy (check_support_cyclic_msg basic_G4_hw) = true.
Proof.
  split; [reflexivity|].
  apply ucannet_implies_cyclic_msg. reflexivity.
Defined.

(** On a product that is not a SYSTEC module ([check_is_systec] false,
    e.g. the GW-001 and GW-002 product ids 0x1100 and 0x1102), every check
    gated on it is falsy: G3, cyclic messages, two channels, UCANnet. *)
Theorem non_systec_gated_checks (hw : HardwareInfoEx)
    (H : truthy (check_is_systec hw) = false) :
  truthy (check_is_G3 hw) = false /\
  truthy (check_support_cyclic_msg hw) = false /\
  truthy (check_support_two_channel hw) = false /\
  truthy (check_support_ucannet hw) = false.
Proof.
  unfold check_is_G3, check_support_cyclic_msg, check_support_two_channel,
    check_support_ucannet, py_and.
  rewrite H. auto.
Qed.

Definition GW002_hw : HardwareInfoEx :=
  {| m_dwSize := 44; m_UcanHandle := 0; m_bDeviceNr := 0; m_dwSerialNr := 1;
     m_dwFwVersionEx := 0x0A030805; m_dwProductCode := 0x1102;
     m_dwUniqueId0 := 0; m_dwUniqueId1 := 0; m_dwUniqueId2 := 0; m_dwUniqueId3 := 0;
     m_dwFlags := 0 |}.

Lemma non_systec_gated_checks_witness :
  truthy (check_is_systec GW002_hw) = false /\
  (truthy (check_is_G3 GW002_hw) = false /\
   truthy (check_support_cyclic_msg GW002_hw) = false /\
   truthy (check_support_two_channel GW002_hw) = false /\
   truthy (check_support_ucannet GW002_hw) = false).
Proof.
  split; [reflexivity|].
  apply non_systec_gated_checks. reflexivity.
Defined.

(** G3 and G4 never hold together, and both G3 and two-channel support
    require a SYSTEC module. *)
Theorem G3_G4_exclusive (hw : HardwareInfoEx) :
  truthy (check_is_G3 hw) && truthy (check_is_G4 hw) = false /\
  (truthy (check_is_G3 hw) = true -> truthy (check_is_systec hw) = true) /\
  (truthy (check_support_two_channel hw) = true -> truthy (check_is_systec hw) = true).
Proof.
  unfold check_is_G3, check_support_two_channel, py_and, py_not.
  generalize (check_is_systec hw) (check_is_G4 hw). intros sy g.
  destruct (truthy sy) eqn:S, (truthy g) eqn:G;
    cbn [truthy negb andb]; rewrite ?S, ?G; repeat split; intros; try discriminate; auto.
Qed.

(** The terminating-resistor, RB user-port and RB CAN-port checks test
    the same product-code bit (0x1), so they give the same answer for every
    module, the same bit as the two-channel check. *)
Theorem same_bit_checks (hw : HardwareInfoEx) :
  check_support_rb_user_port hw = check_support_term_resistor hw /\
  check_support_rb_can_port hw = check_support_term_resistor hw /\
  truthy (check_support_two_channel hw) =
    truthy (check_is_systec hw) && truthy (check_support_term_resistor hw).
Proof.
  unfold check_support_rb_user_port, check_support_rb_can_port,
    check_support_term_resistor, check_support_two_channel, py_and.
  repeat split. generalize (check_is_systec hw). intros sy.
  destruct (truthy sy) eqn:S; cbn [andb]; [reflexivity|exact S].
Qed.

(** [check_support_user_port] is not gated on [check_is_systec]: a
    non-SYSTEC product id (below 0x1103) with firmware 2.16 or later is
    reported as having a user port. *)
Theorem user_port_without_systec (hw : HardwareInfoEx)
    (Hpid : 0 <= Z.land (m_dwProductCode hw) PRODCODE_MASK_PID < PRODCODE_PID_MULTIPORT)
    (Hver : check_version_is_equal_or_higher (m_dwFwVersionEx hw) 2 16 = true) :
  truthy (check_is_systec hw) = false /\ truthy (check_support_user_port hw) = true.
Proof.
  unfold check_is_systec, check_support_user_port, py_and, PRODCODE_PID_BASIC,
    PRODCODE_PID_RESERVED1.
  unfold PRODCODE_PID_MULTIPORT in *.
  rewrite Hver, Z.geb_leb.
  destruct (Z.leb_spec 0x1103 (Z.land (m_dwProductCode hw) PRODCODE_MASK_PID)); [lia|].
  destruct (Z.eqb_spec (Z.land (m_dwProductCode hw) PRODCODE_MASK_PID) 0x1104); [lia|].
  destruct (Z.eqb_spec (Z.land (m_dwProductCode hw) PRODCODE_MASK_PID) 0x1144); [lia|].
    split; reflexivity.
Qed.

Lemma user_port_without_systec_witness :
  (0 <= Z.land (m_dwProductCode GW002_hw) PRODCODE_MASK_PID < PRODCODE_PID_MULTIPORT /\
   check_version_is_equal_or_higher (m_dwFwVersionEx GW002_hw) 2 16 = true) /\
  (truthy (check_is_systec GW002_hw) = false /\
   truthy (check_support_user_port GW002_hw) = true).
Proof.
  assert (P : 0 <= Z.land (m_dwProductCode GW002_hw) PRODCODE_MASK_PID < PRODCODE_PID_MULTIPORT)
    by (change (Z.land (m_dwProductCode GW002_hw) PRODCODE_MASK_PID) with 0x1102;
        unfold PRODCODE_PID_MULTIPORT; lia).
  split; [split; [exact P|reflexivity]|].
  apply user_port_without_systec; [exact P|reflexivity].
Defined.

(** The product ids [PRODCODE_PID_BASIC] and [PRODCODE_PID_RESERVED1]
    never report a user port, whatever their firmware, although both
    count as SYSTEC modules. *)
Theorem user_port_excluded_pids (hw : HardwareInfoEx)
    (Hpid : Z.land (m_dwProductCode hw) PRODCODE_MASK_PID = PRODCODE_PID_BASIC \/
            Z.land (m_dwProductCode hw) PRODCODE_MASK_PID = PRODCODE_PID_RESERVED1) :
  truthy (check_support_user_port hw) = false /\ truthy (check_is_systec hw) = true.
Proof.
  unfold check_support_user_port, check_is_systec, py_and.
  destruct Hpid as [E|E]; rewrite E; split; reflexivity.
Qed.

Definition basic_hw : HardwareInfoEx :=
  {| m_dwSize := 44; m_UcanHandle := 0; m_bDeviceNr := 0; m_dwSerialNr := 7;
     m_dwFwVersionEx := 0x0A030805; m_dwProductCode := 0x1104;
     m_dwUniqueId0 := 0; m_dwUniqueId1 := 0; m_dwUniqueId2 := 0; m_dwUniqueId3 := 0;
     m_dwFlags := 0 |}.

Lemma user_port_excluded_pids_witness :
  (Z.land (m_dwProductCode basic_hw) PRODCODE_MASK_PID = PRODCODE_PID_BASIC \/
   Z.land (m_dwProductCode basic_hw) PRODCODE_MASK_PID = PRODCODE_PID_RESERVED1) /\
  (truthy (check_support_user_port basic_hw) = false /\ truthy (check_is_systec basic_hw) = true).
Proof.
  split; [left; reflexivity|].
  apply user_port_excluded_pids. left. reflexivity.
Defined.

(** ** Acceptance filter for an identifier range *)

Lemma Z_eq_0_bits (x : Z) : x = 0 <-> (forall j, 0 <= j -> Z.testbit x j = false).
Proof.
  split; [intros -> j _; apply Z.bits_0|].
  intros H. apply Z.bits_inj'. intros j Hj. rewrite Z.bits_0. apply H. exact Hj.
Qed.

Lemma testbit_high (a w i : Z) : 0 <= a < 2 ^ w -> 0 <= w <= i -> Z.testbit a i = false.
Proof.
  intros Ha Hi. rewrite <- (Z.mod_small a (2 ^ w)) by lia.
  apply Z.mod_pow2_bits_high. lia.
Qed.

(** The register test for AMR = [((from ^ to) << k) | ones k] and ACR =
    [(from & to) << k], with identifiers of [w] bits and [w + k = 32]. *)
Lemma range_filter_bits (k w from_id to_id id : Z) :
  0 <= k -> 0 <= w -> w + k = 32 ->
  0 <= from_id < 2 ^ w -> 0 <= to_id < 2 ^ w -> 0 <= id < 2 ^ w ->
  (Z.land (Z.land (Z.lxor (Z.shiftl id k) (Z.shiftl (Z.land from_id to_id) k))
                  (Z.lnot (Z.lor (Z.shiftl (Z.lxor from_id to_id) k) (Z.ones k))))
          (Z.ones 32) =? 0) = true
  <-> (forall i, 0 <= i -> Z.testbit (Z.lxor from_id to_id) i = false ->
                 Z.testbit id i = Z.testbit from_id i).
Proof.
  intros Hk Hw Hwk Hf Ht Hid.
  rewrite Z.eqb_eq, Z_eq_0_bits.
  assert (Hbit : forall j, 0 <= j ->
    Z.testbit (Z.land (Z.land (Z.lxor (Z.shiftl id k) (Z.shiftl (Z.land from_id to_id) k))
                  (Z.lnot (Z.lor (Z.shiftl (Z.lxor from_id to_id) k) (Z.ones k))))
          (Z.ones 32)) j =
    (xorb (Z.testbit id (j - k)) (Z.testbit from_id (j - k) && Z.testbit to_id (j - k))
     && negb (xorb (Z.testbit from_id (j - k)) (Z.testbit to_id (j - k)) || (j <? k)))
    && (j <? 32)).
  { intros j Hj.
    rewrite !Z.land_spec, Z.lnot_spec, Z.lor_spec, Z.lxor_spec, !Z.shiftl_spec,
      Z.land_spec, Z.lxor_spec, !Z.testbit_ones_nonneg by lia.
    reflexivity. }
  split.
  - intros H i Hi Hx. rewrite Z.lxor_spec in Hx.
    destruct (Z.le_gt_cases w i).
    + rewrite (testbit_high id w i), (testbit_high from_id w i) by lia. reflexivity.
    + specialize (H (i + k) ltac:(lia)). rewrite Hbit in H by lia.
      replace (i + k - k) with i in H by lia.
      rewrite Hx in H.
      destruct (Z.ltb_spec (i + k) k); [lia|].
      destruct (Z.ltb_spec (i + k) 32); [|lia].
      destruct (Z.testbit id i), (Z.testbit from_id i), (Z.testbit to_id i);
        cbn in *; congruence.
  - intros H j Hj. rewrite Hbit by lia.
    destruct (Z.ltb_spec j k); [rewrite orb_true_r, andb_false_r; reflexivity|].
    destruct (Z.ltb_spec j 32); [|rewrite andb_false_r; reflexivity].
    specialize (H (j - k) ltac:(lia)). rewrite Z.lxor_spec in H.
    destruct (Z.testbit id (j - k)), (Z.testbit from_id (j - k)), (Z.testbit to_id (j - k));
      cbn in *; try reflexivity; specialize (H eq_refl); discriminate.
Qed.

Lemma range_filter_default (is_extended : bool) (from_id to_id id : Z) :
  0 <= from_id < 2 ^ id_width is_extended -> 0 <= to_id < 2 ^ id_width is_extended ->
  0 <= id < 2 ^ id_width is_extended ->
  acceptance_test is_extended
    (calculate_amr is_extended from_id to_id false true)
    (calculate_acr is_extended from_id to_id false true) id = true
  <-> (forall i, 0 <= i -> Z.testbit (Z.lxor from_id to_id) i = false ->
                 Z.testbit id i = Z.testbit from_id i).
Proof.
  intros Hf Ht Hid.
  unfold acceptance_test, calculate_amr, calculate_acr, id_image.
  change 0xFFFFFFFF with (Z.ones 32).
  destruct is_extended; cbn [id_width negb andb] in *; rewrite Z.lor_0_r.
  - change 0x7 with (Z.ones 3). apply (range_filter_bits 3 29); lia.
  - change 0x1FFFFF with (Z.ones 21). apply (range_filter_bits 21 11); lia.
Qed.

(** With the default flags, [calculate_amr]/[calculate_acr] for a range
    [from_id .. to_id] accept an identifier of the frame's width exactly
    when it agrees with [from_id] on every bit where [from_id] and [to_id]
    agree: a mask filter, not an interval test. *)
Theorem range_filter_accepts (is_extended : bool) (from_id to_id id : Z)
    (Hf : 0 <= from_id < 2 ^ id_width is_extended)
    (Ht : 0 <= to_id < 2 ^ id_width is_extended)
    (Hid : 0 <= id < 2 ^ id_width is_extended) :
  acceptance_test is_extended
    (calculate_amr is_extended from_id to_id false true)
    (calculate_acr is_extended from_id to_id false true) id = true
  <-> (forall i, 0 <= i -> Z.testbit (Z.lxor from_id to_id) i = false ->
                 Z.testbit id i = Z.testbit from_id i).
Proof. apply range_filter_default; assumption. Qed.

Lemma range_filter_accepts_witness :
  (0 <= 1 < 2 ^ id_width false /\ 0 <= 4 < 2 ^ id_width false /\ 0 <= 2 < 2 ^ id_width false) /\
  (acceptance_test false (calculate_amr false 1 4 false true)
     (calculate_acr false 1 4 false true) 2 = true
   <-> (forall i, 0 <= i -> Z.testbit (Z.lxor 1 4) i = false ->
                  Z.testbit 2 i = Z.testbit 1 i)).
Proof.
  split; [cbn; lia|].
  apply range_filter_accepts; cbn; lia.
Defined.

(** Both ends of the range always pass the filter (and so does any
    identifier in it whose differing bits lie where the ends differ),
    while an identifier strictly inside can be refused: for the range
    1..4, identifier 2 is rejected. *)
Theorem range_filter_endpoints (is_extended : bool) (from_id to_id : Z)
    (Hf : 0 <= from_id < 2 ^ id_width is_extended)
    (Ht : 0 <= to_id < 2 ^ id_width is_extended) :
  acceptance_test is_extended
    (calculate_amr is_extended from_id to_id false true)
    (calculate_acr is_extended from_id to_id false true) from_id = true /\
  acceptance_test is_extended
    (calculate_amr is_extended from_id to_id false true)
    (calculate_acr is_extended from_id to_id false true) to_id = true /\
  acceptance_test is_extended
    (calculate_amr is_extended 1 4 false true)
    (calculate_acr is_extended 1 4 false true) 2 = false.
Proof.
  split; [|split].
  - apply range_filter_default; auto.
  - apply range_filter_default; auto.
    intros i Hi Hx. rewrite Z.lxor_spec in Hx.
    destruct (Z.testbit from_id i), (Z.testbit to_id i); cbn in *; congruence.
  - destruct is_extended; reflexivity.
Qed.

Lemma range_filter_endpoints_witness :
  (0 <= 0x100 < 2 ^ id_width true /\ 0 <= 0x1FF < 2 ^ id_width true) /\
  (acceptance_test true (calculate_amr true 0x100 0x1FF false true)
     (calculate_acr true 0x100 0x1FF false true) 0x100 = true /\
   acceptance_test true (calculate_amr true 0x100 0x1FF false true)
     (calculate_acr true 0x100 0x1FF false true) 0x1FF = true /\
   acceptance_test true (calculate_amr true 1 4 false true)
     (calculate_acr true 1 4 false true) 2 = false).
Proof.
  split; [cbn; lia|].
  apply range_filter_endpoints; cbn; lia.
Defined.

(** ** Sessions: [shutdown], [init_can], [init_hardware] *)

(** What one turn of the [shutdown] loop does to the dict, when the
    native call returns. *)
Definition shutdown_step (channel : Z) (shutdown_hardware : bool)
    (d : list (Z * bool)) (kv : Z * bool) : list (Z * bool) :=
  if snd kv && ((fst kv =? channel) || (channel =? CHANNEL_ALL) || shutdown_hardware)
  then dict_set (fst kv) false d else d.

(** The native entry point [init_hardware] calls. *)
Definition hw_init_call (serial : option Z) (device_number : Z) (cb : nat) : NativeCall :=
  match serial with
  | None => UcanInitHardwareEx device_number cb
  | Some sn => UcanInitHardwareEx2 sn cb
  end.

Lemma native_trace rc c w o w' :
  native rc c w = (o, w') -> trace w' = c :: trace w.
Proof.
  unfold native. destruct (check_result _ _ _) as [warns o1].
  intros H. inversion H. reflexivity.
Qed.

Lemma call_trace rc c w s o w' s' :
  call rc c (w, s) = (o, (w', s')) -> trace w' = c :: trace w.
Proof.
  unfold call, lift. destruct (native rc c w) as [o1 w1] eqn:E.
  intros H. inversion H; subst. exact (native_trace _ _ _ _ _ E).
Qed.

Lemma dict_get_set k k' v d def :
  dict_get k (dict_set k' v d) def = if k =? k' then v else dict_get k d def.
Proof.
  induction d as [|[k0 v0] t IH]; cbn; [reflexivity|].
  destruct (Z.eqb_spec k' k0) as [->|Hne]; cbn.
  - destruct (k =? k0); reflexivity.
  - rewrite IH. destruct (Z.eqb_spec k k0) as [->|]; [|reflexivity].
    destruct (Z.eqb_spec k0 k'); [congruence|reflexivity].
Qed.

Lemma map_fst_dict_set k v d :
  map fst (dict_set k v d) =
  if existsb (Z.eqb k) (map fst d) then map fst d else map fst d ++ [k].
Proof.
  induction d as [|[k0 v0] t IH]; cbn; [reflexivity|].
  destruct (Z.eqb_spec k k0); cbn; [reflexivity|].
  rewrite IH. destruct (existsb (Z.eqb k) (map fst t)); reflexivity.
Qed.

Lemma dict_get_true_key k d :
  dict_get k d false = true -> existsb (Z.eqb k) (map fst d) = true.
Proof.
  induction d as [|[k0 v0] t IH]; cbn; [discriminate|].
  destruct (k =? k0); [reflexivity|]. intros H. rewrite IH by exact H. apply orb_true_r.
Qed.

Lemma dict_get_no_true k d :
  existsb (fun kv => (fst kv =? k) && snd kv) d = false -> dict_get k d false = false.
Proof.
  induction d as [|[k0 v0] t IH]; cbn; [reflexivity|].
  intros H. apply orb_false_iff in H as [H1 H2].
  destruct (Z.eqb_spec k k0) as [->|]; [rewrite Z.eqb_refl in H1; exact H1|].
  apply IH, H2.
Qed.

(** The loop only ever replaces the channel dict of [self]. *)
Lemma shutdown_channels_only_ch rc ch shw : forall items w s o w' s',
  shutdown_channels rc ch shw items (w, s) = (o, (w', s')) -> exists d, s' = set_ch s d.
Proof.
  induction items as [|[k v] items IH]; intros w s o w' s' Hrun.
  - cbn in Hrun. inversion Hrun; subst. exists (_ch_is_initialized s').
    symmetry. apply set_ch_same.
  - cbn [shutdown_channels] in Hrun. unfold bind at 1 in Hrun.
    destruct (v && _); [|cbn [ret] in Hrun; exact (IH _ _ _ _ _ Hrun)].
    unfold bind at 1, get_self in Hrun. unfold bind at 1 in Hrun.
    destruct (call rc (UcanDeinitCanEx (_handle s) k) (w, s)) as [[r|e] [w1 s1]] eqn:Ec.
    + apply call_keeps_self in Ec. subst s1.
      cbn [get_self put_self bind] in Hrun.
      destruct (IH _ _ _ _ _ Hrun) as [d ->]. exists d. apply set_ch_set_ch.
    + apply call_keeps_self in Ec. subst s1. inversion Hrun; subst.
      exists (_ch_is_initialized s'). symmetry. apply set_ch_same.
Qed.

(** A loop that returns leaves the dict folded by [shutdown_step]. *)
Lemma shutdown_channels_run rc ch shw : forall items w s o w' s',
  shutdown_channels rc ch shw items (w, s) = (Returned o, (w', s')) ->
  s' = set_ch s (fold_left (shutdown_step ch shw) items (_ch_is_initialized s)).
Proof.
  induction items as [|[k v] items IH]; intros w s o w' s' Hrun.
  - cbn in Hrun. inversion Hrun; subst. symmetry. apply set_ch_same.
  - cbn [shutdown_channels fold_left] in Hrun |- *. unfold shutdown_step at 2.
    cbn [fst snd]. unfold bind at 1 in Hrun.
    destruct (v && _).
    + unfold bind at 1, get_self in Hrun. unfold bind at 1 in Hrun.
      destruct (call rc (UcanDeinitCanEx (_handle s) k) (w, s)) as [[r|e] [w1 s1]] eqn:Ec;
        [|discriminate].
      apply call_keeps_self in Ec. subst s1.
      cbn [get_self put_self bind] in Hrun.
      apply IH in Hrun. rewrite Hrun, set_ch_set_ch. reflexivity.
    + cbn [ret] in Hrun. exact (IH _ _ _ _ _ Hrun).
Qed.

Lemma fold_shutdown_get ch shw k : forall items d,
  dict_get k (fold_left (shutdown_step ch shw) items d) false =
  if existsb (fun kv => (fst kv =? k) && snd kv) items
     && ((k =? ch) || (ch =? CHANNEL_ALL) || shw)
  then false else dict_get k d false.
Proof.
  induction items as [|[k0 v0] items IH]; intros d; cbn [fold_left existsb]; [reflexivity|].
  rewrite IH. unfold shutdown_step. cbn [fst snd].
  destruct (Z.eqb_spec k0 k) as [->|Hne].
  - destruct v0, ((k =? ch) || (ch =? CHANNEL_ALL) || shw) eqn:C; cbn;
      rewrite ?dict_get_set, ?Z.eqb_refl; destruct (existsb _ items); reflexivity.
  - cbn [andb orb].
    destruct (v0 && _); rewrite ?dict_get_set;
      destruct (Z.eqb_spec k k0); try congruence; reflexivity.
Qed.

Lemma fold_shutdown_keys ch shw : forall items d,
  (forall kv, In kv items -> In (fst kv) (map fst d)) ->
  map fst (fold_left (shutdown_step ch shw) items d) = map fst d.
Proof.
  induction items as [|kv items IH]; intros d Hin; [reflexivity|].
  cbn [fold_left].
  assert (Hs : map fst (shutdown_step ch shw d kv) = map fst d).
  { unfold shutdown_step. destruct (snd kv && _); [|reflexivity].
    rewrite map_fst_dict_set.
    assert (E : existsb (Z.eqb (fst kv)) (map fst d) = true).
    { apply existsb_exists. exists (fst kv). split; [apply Hin; left; reflexivity|].
      apply Z.eqb_refl. }
    rewrite E. reflexivity. }
  rewrite IH; [exact Hs|].
  intros kv' H'. rewrite Hs. apply Hin. right. exact H'.
Qed.

Lemma shutdown_channels_ext rc c c' : forall items,
  shutdown_channels rc c true items = shutdown_channels rc c' true items.
Proof.
  induction items as [|[k v] items IH]; [reflexivity|].
  cbn [shutdown_channels]. rewrite !orb_true_r, IH. reflexivity.
Qed.

(** With [shutdown_hardware=True] the [channel] argument of [shutdown] is
    irrelevant: every initialized channel is deinitialized, exactly as for
    [CHANNEL_ALL]. *)
Theorem shutdown_hardware_ignores_channel rc (channel : Z) (w : World) (s : Server) :
  shutdown rc channel true (w, s) = shutdown rc CHANNEL_ALL true (w, s).
Proof.
  unfold shutdown, bind at 1 3, get_self.
  rewrite (shutdown_channels_ext rc channel CHANNEL_ALL). reflexivity.
Qed.

(** [shutdown(channel, shutdown_hardware=False)] never touches the
    hardware flag or the handle, raised or not; when it returns, the dict
    keeps its keys and exactly the selected channel ([channel], or every
    channel for [CHANNEL_ALL]) reads [False], the others as before. *)
Theorem shutdown_channel_only rc (channel : Z) (w : World) (s : Server) :
  match shutdown rc channel false (w, s) with
  | (Returned _, (w', s')) =>
      _hw_is_initialized s' = _hw_is_initialized s /\ _handle s' = _handle s /\
      map fst (_ch_is_initialized s') = map fst (_ch_is_initialized s) /\
      (forall k, dict_get k (_ch_is_initialized s') false =
                 if (k =? channel) || (channel =? CHANNEL_ALL) then false
                 else dict_get k (_ch_is_initialized s) false)
  | (Raised _, (w', s')) =>
      _hw_is_initialized s' = _hw_is_initialized s /\ _handle s' = _handle s
  end.
Proof.
  unfold shutdown. unfold bind at 1, get_self. unfold bind at 1.
  destruct (shutdown_channels rc channel false (_ch_is_initialized s) (w, s))
    as [[o|e] [w1 s1]] eqn:El.
  - pose proof (shutdown_channels_run _ _ _ _ _ _ _ _ _ El) as Hs1.
    unfold bind, get_self. rewrite andb_false_r. cbn [ret].
    subst s1. cbn [_hw_is_initialized _handle _ch_is_initialized set_ch].
    repeat split.
    + apply fold_shutdown_keys. intros kv Hin. apply in_map. exact Hin.
    + intros k. rewrite fold_shutdown_get, orb_false_r.
      destruct ((k =? channel) || (channel =? CHANNEL_ALL)); [|rewrite andb_false_r; reflexivity].
      rewrite andb_true_r.
      destruct (existsb _ _) eqn:Ex; [reflexivity|].
      apply dict_get_no_true, Ex.
  - apply shutdown_channels_only_ch in El as [d ->]. split; reflexivity.
Qed.

(** [init_can(channel)] that returns leaves [channel] initialized and
    every other channel as it was; a channel that was not a key yet (such
    as [CHANNEL_ANY]) is added at the end of the dict.  One that raises
    leaves [self] unchanged, after its one [UcanInitCanEx2] call on the
    session handle. *)
Theorem init_can_result rc (channel : Z) (w : World) (s : Server) :
  match init_can rc channel (w, s) with
  | (Returned _, (w', s')) =>
      dict_get channel (_ch_is_initialized s') false = true /\
      (forall k, k <> channel ->
         dict_get k (_ch_is_initialized s') false = dict_get k (_ch_is_initialized s) false) /\
      map fst (_ch_is_initialized s') =
        (if existsb (Z.eqb channel) (map fst (_ch_is_initialized s))
         then map fst (_ch_is_initialized s)
         else map fst (_ch_is_initialized s) ++ [channel]) /\
      _hw_is_initialized s' = _hw_is_initialized s /\ _handle s' = _handle s
  | (Raised _, (w', s')) =>
      s' = s /\ trace w' = UcanInitCanEx2 (_handle s) channel :: trace w
  end.
Proof.
  unfold init_can. unfold bind at 1, get_self.
  destruct (dict_get channel (_ch_is_initialized s) false) eqn:Hg; cbn [negb].
  - cbn [ret]. repeat split; auto.
    rewrite (dict_get_true_key _ _ Hg). reflexivity.
  - unfold bind at 1.
    destruct (call rc (UcanInitCanEx2 (_handle s) channel) (w, s)) as [[r|e] [w1 s1]] eqn:Ec.
    + apply call_keeps_self in Ec. subst s1.
      cbn [bind get_self put_self set_ch _ch_is_initialized _hw_is_initialized _handle].
      repeat split.
      * rewrite dict_get_set, Z.eqb_refl. reflexivity.
      * intros k Hk. rewrite dict_get_set. destruct (Z.eqb_spec k channel); [congruence|reflexivity].
      * apply map_fst_dict_set.
    + pose proof (call_trace _ _ _ _ _ _ _ Ec) as Ht.
      apply call_keeps_self in Ec. subst s1. split; [reflexivity|exact Ht].
Qed.

(** [init_hardware] on a session whose hardware flag is down makes one
    native call, [UcanInitHardwareEx] (no serial) or [UcanInitHardwareEx2]
    (a serial), after which [self._handle] holds what the library wrote.
    If it returns the hardware flag is up; if it raises the flag stays
    down although the handle has been overwritten.  The channel dict is
    untouched either way. *)
Theorem init_hardware_result rc nh (serial : option Z) (device_number : Z)
    (w : World) (s : Server) :
  match init_hardware rc nh serial device_number (w, s) with
  | (Returned _, (w', s')) =>
      _hw_is_initialized s' = true /\ _ch_is_initialized s' = _ch_is_initialized s /\
      (_hw_is_initialized s = false ->
         _handle s' = nh (trace w) /\
         trace w' = hw_init_call serial device_number (_callback_ref s) :: trace w)
  | (Raised _, (w', s')) =>
      _hw_is_initialized s = false /\ _hw_is_initialized s' = false /\
      _handle s' = nh (trace w) /\ _ch_is_initialized s' = _ch_is_initialized s /\
      trace w' = hw_init_call serial device_number (_callback_ref s) :: trace w
  end.
Proof.
  unfold init_hardware. unfold bind at 1, get_self.
  destruct (_hw_is_initialized s) eqn:Hh; cbn [negb].
  - cbn [ret]. repeat split; auto; discriminate.
  - unfold bind at 1.
    assert (Hc : forall c, c = hw_init_call serial device_number (_callback_ref s) ->
       match (call_init_hw rc nh c ;;; (self <- get_self ;; put_self (set_hw self true))) (w, s)
       with
       | (Returned _, (w', s')) =>
           _hw_is_initialized s' = true /\ _ch_is_initialized s' = _ch_is_initialized s /\
           (false = false ->
              _handle s' = nh (trace w) /\
              trace w' = hw_init_call serial device_number (_callback_ref s) :: trace w)
       | (Raised _, (w', s')) =>
           false = false /\ _hw_is_initialized s' = false /\
           _handle s' = nh (trace w) /\ _ch_is_initialized s' = _ch_is_initialized s /\
           trace w' = hw_init_call serial device_number (_callback_ref s) :: trace w
       end).
    { intros c ->. unfold bind at 1, call_init_hw.
      destruct (call rc (hw_init_call serial device_number (_callback_ref s))
                  (w, set_handle s (nh (trace w)))) as [[r|e] [w1 s1]] eqn:Ec.
      - pose proof (call_trace _ _ _ _ _ _ _ Ec) as Ht.
        apply call_keeps_self in Ec. subst s1. cbn [bind get_self put_self].
        destruct s; cbn in *. repeat split; auto.
      - pose proof (call_trace _ _ _ _ _ _ _ Ec) as Ht.
        apply call_keeps_self in Ec. subst s1.
        destruct s; cbn in *. repeat split; auto. }
    destruct serial; exact (Hc _ eq_refl).
Qed.

(** ** [CanMsg] *)

Lemma firstn_prefix (l1 l2 : list Z) : firstn (List.length l1) (l1 ++ l2) = l1.
Proof.
  rewrite <- (Nat.add_0_r (List.length l1)), firstn_app_2. cbn. apply app_nil_r.
Qed.

(** A [CanMsg] built with at most 8 data items reads back, through its
    [data] property, the items as bytes (each taken mod 256) and, through
    [id], the identifier mod 2^32; with more than 8 items the constructor
    raises [IndexError]. *)
Theorem CanMsg_init_data (id frame_format : Z) (data : list Z) :
  match CanMsg_init id frame_format data with
  | COk m =>
      (List.length data <= 8)%nat /\
      CanMsg_data m = map (fun b => b mod 256) data /\ CanMsg_id m = id mod 2 ^ 32
  | CRaise e => e = IndexError /\ (8 < List.length data)%nat
  end.
Proof.
  unfold CanMsg_init, BYTE_array_8.
  destruct (Nat.leb_spec (List.length data) 8) as [H|H].
  - split; [exact H|split; [|reflexivity]].
    unfold CanMsg_data. cbn [m_bDLC m_bData].
    rewrite Z.mod_small by lia. rewrite Nat2Z.id.
    rewrite <- (length_map (fun b => b mod 256) data) at 1. apply firstn_prefix.
  - split; [reflexivity|exact H].
Qed.



(** ** [InitCanParam] *)

Lemma BTR_bytes (x : Z) :
  Z.lor (Z.shiftl (Z.shiftr x 8 mod 256) 8) (x mod 256) = x mod 65536.
Proof.
  change 256 with (2 ^ 8). change 65536 with (2 ^ 16).
  apply Z.bits_inj'. intros i Hi.
  rewrite Z.lor_spec, !Z.testbit_mod_pow2 by lia.
  destruct (Z.ltb_spec i 8).
  - rewrite Z.shiftl_spec_low by lia.
    destruct (Z.ltb_spec i 16); [reflexivity|lia].
  - rewrite Z.shiftl_spec, Z.testbit_mod_pow2, Z.shiftr_spec by lia.
    replace (i - 8 + 8) with i by lia.
    destruct (Z.ltb_spec (i - 8) 8), (Z.ltb_spec i 16); cbn; try lia;
      rewrite ?orb_false_r; reflexivity.
Qed.

Lemma ns_lookup_BTR :
  InitCanParam.ns_lookup "BTR" InitCanParam.namespace =
  Some {| InitCanParam.fget := InitCanParam.get_BTR;
          InitCanParam.fset := Some InitCanParam.set_BTR |}.
Proof. reflexivity. Qed.

Lemma ns_lookup_tx_buffer_entries :
  InitCanParam.ns_lookup "tx_buffer_entries" InitCanParam.namespace =
  Some {| InitCanParam.fget := InitCanParam.get_rx_buffer_entries;
          InitCanParam.fset := Some InitCanParam.set_tx_buffer_entries |}.
Proof. reflexivity. Qed.

(** The [BTR] property packs [m_bBTR0] and [m_bBTR1] back into one
    16-bit value: after the constructor or the setter it reads
    [BTR mod 65536] (so any int, negative ones included, is kept to its
    low 16 bits). *)
Theorem InitCanParam_BTR_roundtrip
    (mode BTR OCR AMR ACR baudrate rx_buffer_entries tx_buffer_entries v : Z)
    (p : InitCanParam.t) :
  InitCanParam.getattr
    (InitCanParam.init mode BTR OCR AMR ACR baudrate rx_buffer_entries tx_buffer_entries) "BTR"
    = Some (BTR mod 65536) /\
  option_map (fun p' => InitCanParam.getattr p' "BTR") (InitCanParam.setattr p "BTR" v)
    = Some (Some (v mod 65536)).
Proof.
  unfold InitCanParam.getattr, InitCanParam.setattr. rewrite ns_lookup_BTR.
  cbn [option_map InitCanParam.fget InitCanParam.fset].
  unfold InitCanParam.get_BTR, InitCanParam.set_BTR, InitCanParam.init.
  cbn [InitCanParam.m_bBTR0 InitCanParam.m_bBTR1].
  rewrite !BTR_bytes. split; reflexivity.
Qed.

(** [tx_buffer_entries] is defined with [@rx_buffer_entries.setter], so
    the class binds it to a property with the getter of
    [rx_buffer_entries]: reading [tx_buffer_entries] returns the RX entry
    count, while assigning it writes the TX field (and leaves the RX one). *)
Theorem InitCanParam_tx_buffer_entries_reads_rx
    (mode BTR OCR AMR ACR baudrate rx_buffer_entries tx_buffer_entries v : Z)
    (p : InitCanParam.t) :
  InitCanParam.getattr p "tx_buffer_entries" = Some (InitCanParam.m_wNrOfRxBufferEntries p) /\
  InitCanParam.getattr
    (InitCanParam.init mode BTR OCR AMR ACR baudrate rx_buffer_entries tx_buffer_entries)
    "tx_buffer_entries" = Some (rx_buffer_entries mod 65536) /\
  option_map InitCanParam.m_wNrOfTxBufferEntries (InitCanParam.setattr p "tx_buffer_entries" v)
    = Some (v mod 65536) /\
  option_map (fun p' => InitCanParam.getattr p' "tx_buffer_entries")
    (InitCanParam.setattr p "tx_buffer_entries" v)
    = Some (Some (InitCanParam.m_wNrOfRxBufferEntries p)).
Proof.
  unfold InitCanParam.getattr, InitCanParam.setattr. rewrite ns_lookup_tx_buffer_entries.
  repeat split; reflexivity.
Qed.

(** ** Callback dispatch *)

(** [_callback] calls one of its hooks exactly for the events 0..5 and
    [_connect_control] exactly for 6..8, so no event reaches both, and
    every other event (such as [EVENT_RESERVED1] = 0x80) is ignored. *)
Theorem event_dispatch (handle event channel param : Z) :
  (_callback handle event channel <> None <-> 0 <= event <= 5) /\
  (_connect_control event param <> None <-> 6 <= event <= 8).
Proof.
  unfold _callback, _connect_control, EVENT_INITHW, EVENT_init_can, EVENT_RECEIVE,
    EVENT_STATUS, EVENT_DEINIT_CAN, EVENT_DEINITHW, EVENT_CONNECT, EVENT_DISCONNECT,
    EVENT_FATALDISCON.
  split.
  - destruct (Z.eqb_spec event 0); [split; [lia|discriminate]|].
    destruct (Z.eqb_spec event 1); [split; [lia|discriminate]|].
    destruct (Z.eqb_spec event 2); [split; [lia|discriminate]|].
    destruct (Z.eqb_spec event 3); [split; [lia|discriminate]|].
    destruct (Z.eqb_spec event 4); [split; [lia|discriminate]|].
    destruct (Z.eqb_spec event 5); [split; [lia|discriminate]|].
    split; [tauto|lia].
  - destruct (Z.eqb_spec event 8); [split; [lia|discriminate]|].
    destruct (Z.eqb_spec event 6); [split; [lia|discriminate]|].
    destruct (Z.eqb_spec event 7); [split; [lia|discriminate]|].
    split; [tauto|lia].
Qed.

(** ** C5 *)

Lemma init_ch rc w0 s w :
  USBCanServer_init rc w0 = (Returned s, w) ->
  _ch_is_initialized s = [(CHANNEL_CH0, false); (CHANNEL_CH1, false)].
Proof.
  unfold USBCanServer_init, bind, new_obj, get. cbn.
  destruct (cls_connect_control_ref w0); cbn.
  - match goal with |- context [native rc ?c ?w] => destruct (native rc c w) as [[r|e] w1] end;
      intros H; inversion H; reflexivity.
  - intros H; inversion H; reflexivity.
Qed.

Lemma NoDup_snoc {A} (l : list A) (x : A) : NoDup l -> ~ In x l -> NoDup (l ++ [x]).
Proof.
  induction 1 as [|y l Hy Hl IH]; cbn; intros Hx.
  - constructor; [intros []|constructor].
  - constructor.
    + rewrite in_app_iff. cbn. intros [H|[H|[]]]; [exact (Hy H)|].
      apply Hx. left. symmetry. exact H.
    + apply IH. intros H. apply Hx. right. exact H.
Qed.

(** [d[k] = v] keeps the keys of a dict distinct. *)
Lemma dict_set_NoDup k v d : NoDup (map fst d) -> NoDup (map fst (dict_set k v d)).
Proof.
  intros H. rewrite map_fst_dict_set.
  destruct (existsb (Z.eqb k) (map fst d)) eqn:E; [exact H|].
  apply NoDup_snoc; [exact H|]. intros Hin.
  assert (E' : existsb (Z.eqb k) (map fst d) = true).
  { apply existsb_exists. exists k. split; [exact Hin | apply Z.eqb_refl]. }
  congruence.
Qed.

(** The [shutdown] loop, returning or not, keeps the keys of the dict:
    it only resets the value of keys it finds there. *)
Lemma shutdown_channels_keys rc ch shw : forall items w s o w' s',
  (forall kv, In kv items -> In (fst kv) (map fst (_ch_is_initialized s))) ->
  shutdown_channels rc ch shw items (w, s) = (o, (w', s')) ->
  map fst (_ch_is_initialized s') = map fst (_ch_is_initialized s).
Proof.
  induction items as [|[k v] items IH]; intros w s o w' s' Hin Hrun.
  - cbn in Hrun. inversion Hrun; reflexivity.
  - cbn [shutdown_channels] in Hrun. unfold bind at 1 in Hrun.
    destruct (v && _).
    2:{ cbn [ret] in Hrun. refine (IH _ _ _ _ _ _ Hrun).
        intros kv H. apply Hin. right. exact H. }
    unfold bind at 1, get_self in Hrun. unfold bind at 1 in Hrun.
    destruct (call rc (UcanDeinitCanEx (_handle s) k) (w, s)) as [[r|e] [w1 s1]] eqn:Ec;
      apply call_keeps_self in Ec; subst s1; [|inversion Hrun; reflexivity].
    cbn [get_self put_self bind] in Hrun.
    assert (Hk : map fst (_ch_is_initialized (set_ch s (dict_set k false (_ch_is_initialized s))))
                 = map fst (_ch_is_initialized s)).
    { unfold set_ch. cbn [_ch_is_initialized]. rewrite map_fst_dict_set.
      assert (E : existsb (Z.eqb k) (map fst (_ch_is_initialized s)) = true).
      { apply existsb_exists. exists k. split; [apply (Hin (k, v)); left; reflexivity|].
        apply Z.eqb_refl. }
      rewrite E. reflexivity. }
    rewrite <- Hk. refine (IH _ _ _ _ _ _ Hrun).
    intros kv H. rewrite Hk. apply Hin. right. exact H.
Qed.

(** Every method keeps the keys of the channel dict distinct. *)
Lemma run_method_NoDup rc nh m w s o w' s' :
  NoDup (map fst (_ch_is_initialized s)) ->
  run_method rc nh m (w, s) = (o, (w', s')) -> NoDup (map fst (_ch_is_initialized s')).
Proof.
  intros Hnd. destruct m as [sn dn | ch | ch shw | n a]; cbn [run_method].
  - unfold init_hardware, bind at 1, get_self.
    destruct (negb (_hw_is_initialized s)); [|intros H; inversion H; subst; exact Hnd].
    unfold bind at 1.
    destruct (match sn with
              | Some x => call_init_hw rc nh (UcanInitHardwareEx2 x (_callback_ref s))
              | None => call_init_hw rc nh (UcanInitHardwareEx dn (_callback_ref s))
              end (w, s)) as [[r|e] [w1 s1]] eqn:Ec.
    + assert (Hs1 : _ch_is_initialized s1 = _ch_is_initialized s).
      { destruct sn; unfold call_init_hw in Ec; apply call_keeps_self in Ec; subst s1;
          destruct s; reflexivity. }
      cbn [bind get_self put_self]. intros H; inversion H; subst.
      unfold set_hw. cbn [_ch_is_initialized]. rewrite Hs1. exact Hnd.
    + intros H; inversion H; subst.
      destruct sn; unfold call_init_hw in Ec; apply call_keeps_self in Ec; subst; exact Hnd.
  - unfold init_can, bind at 1, get_self.
    destruct (negb (dict_get ch (_ch_is_initialized s) false));
      [|intros H; inversion H; subst; exact Hnd].
    unfold bind at 1. intros H. call_keeps; cbn [bind get_self put_self] in H;
      inversion H; subst; [|exact Hnd].
    unfold set_ch. cbn [_ch_is_initialized]. apply dict_set_NoDup. exact Hnd.
  - unfold shutdown, bind at 1, get_self. unfold bind at 1.
    destruct (shutdown_channels rc ch shw (_ch_is_initialized s) (w, s))
      as [[[]|e] [w1 s1]] eqn:El;
      (apply shutdown_channels_keys in El;
       [rewrite <- El in Hnd; clear El; rename Hnd into El
       |intros kv Hkv; apply in_map; exact Hkv]);
      [|intros H; inversion H; subst; exact El].
    unfold bind at 1, get_self.
    destruct (_hw_is_initialized s1 && shw); [|intros H; inversion H; subst; exact El].
    unfold bind at 1. intros H. call_keeps; cbn [bind get_self put_self] in H;
      inversion H; subst; exact El.
  - unfold other_method, bind at 1, get_self. unfold bind at 1. intros H.
    call_keeps; inversion H; subst; exact Hnd.
Qed.

(** In every reachable session the channel dict has distinct keys. *)
Lemma reachable_NoDup rc nh w s :
  reachable rc nh w s -> NoDup (map fst (_ch_is_initialized s)).
Proof.
  induction 1 as [w0 w s Hi | w s m o w' s' _ IH Hrun].
  - rewrite (init_ch rc w0 s w Hi). cbn. unfold CHANNEL_CH0, CHANNEL_CH1.
    constructor; [intros [H|[]]; discriminate H|].
    constructor; [intros []|constructor].
  - exact (run_method_NoDup rc nh m w s o w' s' IH Hrun).
Qed.

(** A hardware shutdown that returns clears every channel flag and the
    hardware flag; it writes [INVALID_HANDLE] only when it called
    [UcanDeinitHardware], that is when the hardware flag was set. *)
Lemma shutdown_all_outcome rc w s w' s' (o : unit) :
  NoDup (map fst (_ch_is_initialized s)) ->
  shutdown rc CHANNEL_ALL true (w, s) = (Returned o, (w', s')) ->
  _ch_is_initialized s' = clear_all (_ch_is_initialized s) /\
  _hw_is_initialized s' = false /\
  _handle s' = (if _hw_is_initialized s then INVALID_HANDLE else _handle s).
Proof.
  intros Hnd Hrun.
  unfold shutdown in Hrun. unfold bind at 1, get_self in Hrun. unfold bind at 1 in Hrun.
  destruct (shutdown_channels rc CHANNEL_ALL true (_ch_is_initialized s) (w, s))
    as [[[]|e] [w1 s1]] eqn:El; [|discriminate].
  apply (shutdown_channels_clears rc CHANNEL_ALL (_ch_is_initialized s) [] w s w1 s1)
    in El; [|reflexivity|exact Hnd].
  subst s1. simpl app in Hrun.
  unfold bind at 1, get_self in Hrun. rewrite andb_true_r in Hrun.
  destruct (_hw_is_initialized (set_ch s (clear_all (_ch_is_initialized s)))) eqn:Hhw.
  - unfold bind at 1 in Hrun.
    destruct (call rc (UcanDeinitHardware (_handle (set_ch s (clear_all (_ch_is_initialized s)))))
                (w1, set_ch s (clear_all (_ch_is_initialized s)))) as [[r|e] [w2 s2]] eqn:Ec;
      [|discriminate].
    apply call_keeps_self in Ec. subst s2.
    cbn [bind get_self put_self] in Hrun. inversion Hrun; subst.
    destruct s; cbn in Hhw; subst; repeat split.
  - cbn [ret] in Hrun. inversion Hrun; subst.
    destruct s; cbn in Hhw; subst; repeat split.
Qed.

(** C5 (amended): in every reachable session, a
    [shutdown(CHANNEL_ALL, shutdown_hardware=True)] that returns leaves
    every channel flag and the hardware flag [False]; the handle becomes
    [INVALID_HANDLE] when the hardware flag was set before the call and
    is left as it was otherwise (after an [init_hardware] that raised it
    holds the value the library wrote); a second such call then issues no
    native call (the process state, and so the trace of calls, is
    unchanged), raises nothing and changes nothing. *)
Theorem shutdown_idempotent_reachable rc nh (w : World) (s : Server)
    (Hr : reachable rc nh w s) :
  match shutdown rc CHANNEL_ALL true (w, s) with
  | (Returned _, (w', s')) =>
      chan_flags_clear s' = true /\
      is_can0_initialized s' = false /\ is_can1_initialized s' = false /\
      _hw_is_initialized s' = false /\
      _handle s' = (if _hw_is_initialized s then INVALID_HANDLE else _handle s) /\
      shutdown rc CHANNEL_ALL true (w', s') = (Returned tt, (w', s'))
  | (Raised _, _) => True
  end.
Proof.
  destruct (shutdown rc CHANNEL_ALL true (w, s)) as [[o|e] [w' s']] eqn:Hrun; [|exact I].
  destruct (shutdown_all_outcome rc w s w' s' o (reachable_NoDup rc nh w s Hr) Hrun)
    as (Hc & Hh & Hi).
  assert (Hcl : chan_flags_clear s' = true) by
    (unfold chan_flags_clear; rewrite Hc; apply clear_all_clear).
  split; [exact Hcl|]. split; [apply dict_get_clear, Hcl|].
  split; [apply dict_get_clear, Hcl|]. split; [exact Hh|]. split; [exact Hi|].
  apply shutdown_when_clear; assumption.
Qed.

(** The session of [after_init_hardware] after [init_can(CHANNEL_CH0)]
    and [init_can(CHANNEL_CH1)]. *)
Definition after_init_can0 : World * Server :=
  snd (init_can driver_ok CHANNEL_CH0 after_init_hardware).

Definition after_init_can1 : World * Server :=
  snd (init_can driver_ok CHANNEL_CH1 after_init_can0).

Lemma shutdown_idempotent_reachable_witness :
  reachable driver_ok handle_3 (fst after_init_can1) (snd after_init_can1) /\
  _hw_is_initialized (snd after_init_can1) = true /\
  is_can0_initialized (snd after_init_can1) = true /\
  is_can1_initialized (snd after_init_can1) = true /\
  match shutdown driver_ok CHANNEL_ALL true (fst after_init_can1, snd after_init_can1) with
  | (Returned _, (w', s')) =>
      chan_flags_clear s' = true /\
      is_can0_initialized s' = false /\ is_can1_initialized s' = false /\
      _hw_is_initialized s' = false /\
      _handle s' = (if _hw_is_initialized (snd after_init_can1) then INVALID_HANDLE
                    else _handle (snd after_init_can1)) /\
      shutdown driver_ok CHANNEL_ALL true (w', s') = (Returned tt, (w', s'))
  | (Raised _, _) => True
  end.
Proof.
  assert (R : reachable driver_ok handle_3 (fst after_init_can1) (snd after_init_can1)).
  { apply (reach_step driver_ok handle_3 (fst after_init_can0) (snd after_init_can0)
             (MInitCan CHANNEL_CH1) (Returned tt)); [|reflexivity].
    apply (reach_step driver_ok handle_3 (fst after_init_hardware) (snd after_init_hardware)
             (MInitCan CHANNEL_CH0) (Returned tt)); [|reflexivity].
    apply (reach_step driver_ok handle_3 (fst start_session) (snd start_session)
             (MInitHardware None ANY_MODULE) (Returned tt)); [|reflexivity].
    apply (reach_init driver_ok handle_3 process_start); reflexivity. }
  split; [exact R|]. split; [reflexivity|]. split; [reflexivity|]. split; [reflexivity|].
  exact (shutdown_idempotent_reachable driver_ok handle_3 _ _ R).
Defined.

(** A library that fails [UcanInitHardwareEx] with [ERR_RESOURCE] (1)
    after writing handle 7, and answers every other call with [SUCCESSFUL]. *)
Definition rc_init_hw_fails : list NativeCall -> NativeCall -> Z :=
  fun _ c => match c with UcanInitHardwareEx _ _ => 1 | _ => 0 end.

Definition handle_7 : list NativeCall -> Z := fun _ => 7.

(** A fresh session after an [init_hardware()] that raised. *)
Definition after_failed_init_hardware : World * Server :=
  snd (init_hardware rc_init_hw_fails handle_7 None ANY_MODULE start_session).

(** C5 as first stated fails: after an [init_hardware()] that raised, the
    hardware flag is [False] and the handle holds 7; a
    [shutdown(CHANNEL_ALL, True)] then returns and changes nothing, so
    the handle is still 7 and not [INVALID_HANDLE] after the first call. *)
Lemma shutdown_keeps_stale_handle :
  reachable rc_init_hw_fails handle_7
    (fst after_failed_init_hardware) (snd after_failed_init_hardware) /\
  _hw_is_initialized (snd after_failed_init_hardware) = false /\
  shutdown rc_init_hw_fails CHANNEL_ALL true after_failed_init_hardware
    = (Returned tt, after_failed_init_hardware) /\
  _handle (snd after_failed_init_hardware) = 7 /\
  _handle (snd after_failed_init_hardware) <> INVALID_HANDLE.
Proof.
  split.
  { apply (reach_step rc_init_hw_fails handle_7 (fst start_session) (snd start_session)
             (MInitHardware None ANY_MODULE)
             (fst (init_hardware rc_init_hw_fails handle_7 None ANY_MODULE start_session)));
      [|reflexivity].
    apply (reach_init rc_init_hw_fails handle_7 process_start); reflexivity. }
  split; [reflexivity|]. split; [reflexivity|]. split; [reflexivity|].
  vm_compute. intros H. discriminate H.
Qed.
